(** * String Analysis API: a shallow embedding of the two Express servers

    The repository holds two near-duplicate servers: [src/index.js]
    (module [IndexJs] below) and a second, unnamed file (module [Part000],
    the first unnamed source part).  Both keep an in-memory [Map] from the
    SHA-256 digest of a trimmed string to a record of derived properties.

    JavaScript strings are sequences of UTF-16 code units; they are modelled
    as [list N].  Host functions that are not part of the repository
    ([String.prototype.toLowerCase], the SHA-256 digest) are taken as
    parameters through the class [Builtins]. *)

From Stdlib Require Import ZArith NArith List Ascii String Bool Lia.
From stdpp Require Import base option list gmap fin_maps.

(** ** JavaScript strings *)

Module Js.

(** A string literal of the source, as UTF-16 code units (ASCII only). *)
Fixpoint js (s : string) : list N :=
  match s with
  | EmptyString => []
  | String a t => N_of_ascii a :: js t
  end.

Definition is_high_surrogate (u : N) : bool := ((0xD800 <=? u) && (u <=? 0xDBFF))%N.
Definition is_low_surrogate (u : N) : bool := ((0xDC00 <=? u) && (u <=? 0xDFFF))%N.

(** [for (const ch of str)] and [new Set(str)]: the string iterator yields
    code points; a high surrogate directly followed by a low surrogate is
    one element of two code units, anything else is a single code unit. *)
Fixpoint code_points (s : list N) : list (list N) :=
  match s with
  | [] => []
  | u :: t =>
      match t with
      | v :: t' =>
          if is_high_surrogate u && is_low_surrogate v
          then [u; v] :: code_points t'
          else [u] :: code_points t
      | [] => [[u]]
      end
  end.

(** WhiteSpace and LineTerminator of ECMAScript: what [trim] strips and what
    [\s] matches. *)
Definition is_whitespace (u : N) : bool :=
  ((u =? 0x09) || (u =? 0x0A) || (u =? 0x0B) || (u =? 0x0C) || (u =? 0x0D)
   || (u =? 0x20) || (u =? 0xA0) || (u =? 0x1680)
   || ((0x2000 <=? u) && (u <=? 0x200A))
   || (u =? 0x2028) || (u =? 0x2029) || (u =? 0x202F) || (u =? 0x205F)
   || (u =? 0x3000) || (u =? 0xFEFF))%N.

Fixpoint trim_start (s : list N) : list N :=
  match s with
  | u :: t => if is_whitespace u then trim_start t else s
  | [] => []
  end.

(** [str.trim()] *)
Definition trim (s : list N) : list N := rev (trim_start (rev (trim_start s))).

Fixpoint starts_with (p s : list N) : bool :=
  match p, s with
  | [], _ => true
  | a :: p', b :: s' => (a =? b)%N && starts_with p' s'
  | _ :: _, [] => false
  end.

(** [s.includes(sub)] *)
Fixpoint includes (s sub : list N) : bool :=
  starts_with sub s ||
  match s with
  | [] => false
  | _ :: t => includes t sub
  end.

(** [a === b] on strings. *)
Definition str_eqb (a b : list N) : bool := bool_decide (a = b).

(** [s.split('')]: one string per code unit; [a.join('')]: concatenation. *)
Definition split_units (s : list N) : list (list N) := map (fun u => [u]) s.
Definition join_empty (a : list (list N)) : list N := concat a.

(** [s.split(/\s+/)]: the pieces between maximal whitespace runs, an empty
    piece where the string starts or ends with one. *)
Fixpoint split_ws_go (in_run : bool) (cur : list N) (s : list N) : list (list N) :=
  match s with
  | [] => [rev cur]
  | u :: t =>
      if is_whitespace u
      then (if in_run then split_ws_go true [] t
            else rev cur :: split_ws_go true [] t)
      else split_ws_go false (u :: cur) t
  end.
Definition split_ws (s : list N) : list (list N) := split_ws_go false [] s.

(** Truthiness of a string: non-empty. [a.filter(Boolean)] on strings. *)
Definition truthy (s : list N) : bool := match s with [] => false | _ => true end.
Definition filter_Boolean (a : list (list N)) : list (list N) := List.filter truthy a.

(** A query parameter, a path parameter or a variable that is either
    [undefined] or a string. *)
Definition truthy_opt (o : option (list N)) : bool :=
  match o with Some s => truthy s | None => false end.

(** ** Numbers

    The numbers these servers compute with are integer-valued doubles,
    NaN and the infinities. [Num z] stands for the double of value [z]. *)

Inductive Number := NaN | Num (z : Z) | Inf (negative : bool).

(** Round a non-negative integer to 53 significant bits, ties to even. *)
Definition round53 (z : Z) : Z :=
  let k := (Z.log2 z + 1)%Z in
  if (k <=? 53)%Z then z
  else
    let sh := (k - 53)%Z in
    let q := Z.shiftr z sh in
    let r := Z.land z (Z.ones sh) in
    let half := Z.shiftl 1 (sh - 1) in
    let q' := if (half <? r)%Z || ((r =? half)%Z && Z.odd q) then (q + 1)%Z else q in
    Z.shiftl q' sh.

(** The double nearest to an integer. *)
Definition to_double (z : Z) : Number :=
  let m := round53 (Z.abs z) in
  if (2 ^ 1024 <=? m)%Z then Inf (z <? 0)%Z
  else Num (Z.sgn z * m).

(** [a + b] *)
Definition add (a b : Number) : Number :=
  match a, b with
  | NaN, _ | _, NaN => NaN
  | Num x, Num y => to_double (x + y)
  | Inf s, Num _ | Num _, Inf s => Inf s
  | Inf s, Inf s' => if Bool.eqb s s' then Inf s else NaN
  end.

(** [a < b], [a > b], [a !== b] *)
Definition lt (a b : Number) : bool :=
  match a, b with
  | NaN, _ | _, NaN => false
  | Num x, Num y => (x <? y)%Z
  | Num _, Inf s => negb s
  | Inf s, Num _ => s
  | Inf s, Inf s' => s && negb s'
  end.
Definition gt (a b : Number) : bool := lt b a.
Definition strict_eq (a b : Number) : bool :=
  match a, b with
  | Num x, Num y => (x =? y)%Z
  | Inf s, Inf s' => Bool.eqb s s'
  | _, _ => false
  end.
Definition strict_ne (a b : Number) : bool := negb (strict_eq a b).
Definition isNaN (a : Number) : bool := match a with NaN => true | _ => false end.

(** A [length] or a counter: a natural number far below 2^53. *)
Definition of_nat (n : nat) : Number := Num (Z.of_nat n).

Definition is_digit (u : N) : bool := ((0x30 <=? u) && (u <=? 0x39))%N.

(** Value of a digit in the given radix, if it is one. *)
Definition digit_value (radix : Z) (u : N) : option Z :=
  let v :=
    if is_digit u then Some (Z.of_N u - 0x30)%Z
    else if ((0x61 <=? u) && (u <=? 0x7A))%N then Some (Z.of_N u - 0x61 + 10)%Z
    else if ((0x41 <=? u) && (u <=? 0x5A))%N then Some (Z.of_N u - 0x41 + 10)%Z
    else None in
  match v with
  | Some d => if (d <? radix)%Z then Some d else None
  | None => None
  end.

(** The longest prefix of radix digits, read as an integer; [None] when
    there is no digit. *)
Fixpoint digits_go (radix : Z) (acc : Z) (seen : bool) (s : list N) : option Z :=
  match s with
  | u :: t =>
      match digit_value radix u with
      | Some d => digits_go radix (acc * radix + d)%Z true t
      | None => if seen then Some acc else None
      end
  | [] => if seen then Some acc else None
  end.

(** [parseInt(s)] with no radix argument. *)
Definition parseInt (s : list N) : Number :=
  let s1 := trim_start s in
  let '(negative, s2) :=
    match s1 with
    | u :: t => if (u =? 0x2D)%N then (true, t)
                else if (u =? 0x2B)%N then (false, t) else (false, s1)
    | [] => (false, s1)
    end in
  let '(radix, s3) :=
    match s2 with
    | z :: x :: t =>
        if (z =? 0x30)%N && ((x =? 0x78)%N || (x =? 0x58)%N) then (16%Z, t) else (10%Z, s2)
    | _ => (10%Z, s2)
    end in
  match digits_go radix 0 false s3 with
  | None => NaN
  | Some m => to_double (if negative then - m else m)
  end.

(** ** Regular expressions

    The two patterns of the source use literals, an optional group, a
    greedy repetition of a character class and capture groups. [run]
    lists the ways a pattern matches a prefix of the input in the order a
    backtracking matcher tries them, each with the captures made and the
    rest of the input. *)

Inductive regex :=
| Lit (l : list N)
| Class (p : N -> bool)
| Plus (p : N -> bool)
| Opt (r : regex)
| Group (r : regex)
| Seq (r1 r2 : regex).

Fixpoint groups (r : regex) : nat :=
  match r with
  | Lit _ | Class _ | Plus _ => 0
  | Opt r => groups r
  | Group r => S (groups r)
  | Seq r1 r2 => groups r1 + groups r2
  end.

(** Greedy [p+]: longest run first, then shorter ones. *)
Fixpoint run_plus (p : N -> bool) (s : list N) : list (list N) :=
  match s with
  | u :: t => if p u then run_plus p t ++ [t] else []
  | [] => []
  end.

Definition consumed (s rest : list N) : list N := take (length s - length rest) s.

Fixpoint run (r : regex) (s : list N) : list (list (option (list N)) * list N) :=
  match r with
  | Lit l => if starts_with l s then [([], drop (length l) s)] else []
  | Class p => match s with u :: t => if p u then [([], t)] else [] | [] => [] end
  | Plus p => map (fun rest => ([], rest)) (run_plus p s)
  | Opt r => run r s ++ [(replicate (groups r) None, s)]
  | Group r => map (fun '(caps, rest) => (Some (consumed s rest) :: caps, rest)) (run r s)
  | Seq r1 r2 =>
      flat_map (fun '(c1, rest1) =>
                  map (fun '(c2, rest2) => (c1 ++ c2, rest2)) (run r2 rest1))
               (run r1 s)
  end.

(** [s.match(re)] for a pattern without the g flag: the match array of the
    leftmost match (element 0 the matched text, then the groups,
    [undefined] for a group that took no part), or [null]. *)
Fixpoint str_match (r : regex) (s : list N) : option (list (option (list N))) :=
  match run r s with
  | (caps, rest) :: _ => Some (Some (consumed s rest) :: caps)
  | [] => match s with
          | [] => None
          | _ :: t => str_match r t
          end
  end.

(** [m[i]] on a match array. *)
Definition capture (m : list (option (list N))) (i : nat) : option (list N) :=
  match m !! i with Some c => c | None => None end.

(** The alternative a backtracking matcher settles on at the start of [s]. *)
Definition first_match (r : regex) (s : list N) : option (list (option (list N)) * list N) :=
  head (run r s).

(** What it means for a pattern to match a prefix of [s] and leave [rest],
    said without the order of the alternatives and without captures. *)
Fixpoint denote (r : regex) (s rest : list N) : Prop :=
  match r with
  | Lit l => s = l ++ rest
  | Class p => exists u, p u = true /\ s = u :: rest
  | Plus p => exists ds, ds <> [] /\ Forall (fun u => p u = true) ds /\ s = ds ++ rest
  | Opt r => denote r s rest \/ rest = s
  | Group r => denote r s rest
  | Seq r1 r2 => exists mid, denote r1 s mid /\ denote r2 mid rest
  end.

(** No match of [r] starts at one of the first [n] positions of [s]. *)
Definition no_match_before (r : regex) (s : list N) (n : nat) : Prop :=
  forall i rest, i < n -> ~ denote r (drop i s) rest.

(** A high surrogate directly followed by a low surrogate occurs in [s]. *)
Fixpoint has_surrogate_pair (s : list N) : bool :=
  match s with
  | u :: t =>
      match t with
      | v :: _ => (is_high_surrogate u && is_low_surrogate v) || has_surrogate_pair t
      | [] => false
      end
  | [] => false
  end.

(** [\w] *)
Definition is_word (u : N) : bool :=
  (is_digit u || ((0x61 <=? u) && (u <=? 0x7A)) || ((0x41 <=? u) && (u <=? 0x5A)) || (u =? 0x5F))%N.

End Js.

(** ** The [Map] of the store

    A JavaScript [Map] keeps its entries in insertion order; [set] on a key
    that is present replaces the value in place. *)

Module JsMap.
Section Ops.
Context {V : Type}.

Fixpoint get (k : list N) (m : list (list N * V)) : option V :=
  match m with
  | [] => None
  | (k', v) :: m' => if bool_decide (k = k') then Some v else get k m'
  end.

Definition has (k : list N) (m : list (list N * V)) : bool :=
  match get k m with Some _ => true | None => false end.

Fixpoint set (k : list N) (v : V) (m : list (list N * V)) : list (list N * V) :=
  match m with
  | [] => [(k, v)]
  | (k', v') :: m' =>
      if bool_decide (k = k') then (k, v) :: m' else (k', v') :: set k v m'
  end.

Fixpoint delete (k : list N) (m : list (list N * V)) : list (list N * V) :=
  match m with
  | [] => []
  | (k', v') :: m' =>
      if bool_decide (k = k') then m' else (k', v') :: delete k m'
  end.

(** [Array.from(m.values())] *)
Definition values (m : list (list N * V)) : list V := map snd m.
End Ops.
End JsMap.

(** ** What the handlers receive and produce *)

(** A JSON value of a request body. *)
#[warnings="-register-all"] Inductive json :=
| JNull
| JBool (b : bool)
| JNumber (n : Js.Number)
| JString (s : list N)
| JArray (l : list json)
| JObject (l : list (list N * json)).

Inductive JsError :=
| ReferenceError (identifier : string)
| TypeError (message : string).

(** A handler either sends a response or throws. *)
Inductive Outcome (B : Type) :=
| Responded (status : nat) (body : B)
| Threw (e : JsError).
Arguments Responded {B} status body.
Arguments Threw {B} e.

(** Host functions the servers call. *)
Class Builtins := {
  toLowerCase : list N -> list N;
  (** [crypto.createHash('sha256').update(s).digest('hex')] *)
  sha256_hex : list N -> list N;
}.

Definition lower_unit (u : N) : N :=
  if ((0x41 <=? u) && (u <=? 0x5A))%N then (u + 0x20)%N else u.

(** On a string of ASCII code units [toLowerCase] maps A..Z to a..z and
    keeps the rest. *)
Definition lowers_ascii (B : Builtins) : Prop :=
  forall s, Forall (fun u => (u < 128)%N) s -> toLowerCase s = map lower_unit s.

(** A host for evaluating the handlers on ASCII inputs; the digest is a
    stand-in (the text itself). *)
Definition AsciiHost : Builtins :=
  {| toLowerCase := map lower_unit; sha256_hex := fun s => s |}.

(** Helpers shared by the handlers of both files. *)

(** [a.includes(x)] on an array of strings. *)
Definition array_includes (a : list (list N)) (x : list N) : bool :=
  existsb (Js.str_eqb x) a.

(** [!obj[key]] on a frequency object: the property is missing or zero. *)
Definition falsy_count (m : gmap (list N) nat) (key : list N) : bool :=
  match m !! key with
  | Some n => Nat.eqb n 0
  | None => true
  end.

(** [parseInt(m[i])]; an [undefined] capture reads as the text undefined. *)
Definition parseInt_capture (c : option (list N)) : Js.Number :=
  match c with
  | Some s => Js.parseInt s
  | None => Js.parseInt (Js.js "undefined")
  end.

(** [/long(er)? than (\d+) characters?/] *)
Definition lengthRe : Js.regex :=
  Js.Seq (Js.Lit (Js.js "long"))
    (Js.Seq (Js.Opt (Js.Group (Js.Lit (Js.js "er"))))
       (Js.Seq (Js.Lit (Js.js " than "))
          (Js.Seq (Js.Group (Js.Plus Js.is_digit))
             (Js.Seq (Js.Lit (Js.js " character")) (Js.Opt (Js.Lit (Js.js "s"))))))).

(** [/contains(?: the)? letter (\w)/] *)
Definition containsRe : Js.regex :=
  Js.Seq (Js.Lit (Js.js "contains"))
    (Js.Seq (Js.Opt (Js.Lit (Js.js " the")))
       (Js.Seq (Js.Lit (Js.js " letter ")) (Js.Group (Js.Class Js.is_word)))).

Definition b2n (b : bool) : nat := if b then 1 else 0.

(** ** Requests and the dispatch of Express

    [app.get], [app.post] and [app.delete] add routes in the order of the
    calls, and a request goes to the first route whose method and path
    match. Every handler of the two files ends the request itself (none
    calls [next]), so no later route sees it. *)

Inductive Method := GET | HEAD | POST | DELETE | OtherMethod.

(** A request: the path split at the slashes (pieces without percent
    escapes, so that a path parameter is the piece itself), the query
    parameters, each absent or one string, and [req.body.value]. *)
Record Request := {
  req_method : Method;
  req_path : list (list N);
  req_query : list N -> option (list N);
  req_body_value : option json;
}.

(** A piece of a route path: literal text or a named parameter. *)
Inductive Segment := Literal (text : list N) | Param.

(** A route method accepts its own method; a GET route also answers HEAD. *)
Definition method_matches (route request : Method) : bool :=
  match route, request with
  | GET, GET | GET, HEAD | POST, POST | DELETE, DELETE => true
  | _, _ => false
  end.

(** Matching a route path: literal text is compared without regard to
    ASCII case, a parameter takes one non-empty piece; the result is the
    list of parameter values. *)
Fixpoint match_path (pattern : list Segment) (path : list (list N))
    : option (list (list N)) :=
  match pattern, path with
  | [], [] => Some []
  | Literal text :: pattern', piece :: path' =>
      if Js.str_eqb (map lower_unit piece) (map lower_unit text)
      then match_path pattern' path' else None
  | Param :: pattern', piece :: path' =>
      if Js.truthy piece
      then match match_path pattern' path' with
           | Some params => Some (piece :: params)
           | None => None
           end
      else None
  | _, _ => None
  end.

Record Route (S Bd : Type) := {
  route_method : Method;
  route_path : list Segment;
  route_handler : list N -> S -> Request -> list (list N) -> Outcome Bd * S;
}.
Arguments route_method {S Bd} _.
Arguments route_path {S Bd} _.
Arguments route_handler {S Bd} _.

(** The first matching route handles the request; [None] when no route
    matches (Express then answers 404 on its own). [now] is the clock
    reading passed to the handler. *)
Fixpoint dispatch {S Bd : Type} (routes : list (Route S Bd)) (now : list N) (store : S)
    (req : Request) : option (Outcome Bd * S) :=
  match routes with
  | [] => None
  | r :: rest =>
      if method_matches (route_method r) (req_method req)
      then match match_path (route_path r) (req_path req) with
           | Some params => Some (route_handler r now store req params)
           | None => dispatch rest now store req
           end
      else dispatch rest now store req
  end.

(** ** The unnamed server file (first unnamed source part) *)

Module Part000.

Record Properties := {
  length : nat;
  is_palindrome : bool;
  unique_characters : nat;
  word_count : nat;
  sha256_hash : list N;
  character_frequency_map : gmap (list N) nat;
}.

Record StoredObj := {
  id : list N;
  value : list N;
  properties : Properties;
  created_at : list N;
}.

(** The [filters] object of GET /strings and the object built by
    [parseNaturalLanguage]; [None] is the marker of an absent predicate
    ([undefined] for [is_palindrome] and for every key of the parser's
    object, [null] for the other keys of GET /strings). *)
Record Filters := {
  f_is_palindrome : option bool;
  f_min_length : option Js.Number;
  f_max_length : option Js.Number;
  f_word_count : option Js.Number;
  f_contains_character : option (list N);
}.

(** [req.query] of GET /strings, each parameter [undefined] or a string. *)
Record Query := {
  q_is_palindrome : option (list N);
  q_min_length : option (list N);
  q_max_length : option (list N);
  q_word_count : option (list N);
  q_contains_character : option (list N);
}.

Inductive Body :=
| ErrorBody (error : string)
| RecordBody (obj : StoredObj)
| ListBody (data : list StoredObj) (count : nat) (filters_applied : Filters)
| NlBody (data : list StoredObj) (count : nat) (original : list N) (parsed_filters : Filters)
| NoBody.

Section Server.
Context {B : Builtins}.

(** lines 35-36 *)
Definition isPalindrome (str : list N) : bool :=
  let lower := toLowerCase str in
  Js.str_eqb lower (Js.join_empty (rev (Js.split_units lower))).

(** lines 38-41 *)
Definition charFreq (str : list N) : gmap (list N) nat :=
  fold_left (fun m ch => <[ch := default 0 (m !! ch) + 1]> m) (Js.code_points str) ∅.

(** line 43 *)
Definition wordCount (str : list N) : nat :=
  List.length (Js.filter_Boolean (Js.split_ws str)).

(** [new Set(str)] *)
Definition charSet (str : list N) : gset (list N) := list_to_set (Js.code_points str).

(** lines 45-52 *)
Definition make_properties (str hash : list N) : Properties :=
  {| length := List.length str;
     is_palindrome := isPalindrome str;
     unique_characters := size (charSet str);
     word_count := wordCount str;
     sha256_hash := hash;
     character_frequency_map := charFreq str |}.

(** POST /strings; [now] is [new Date().toISOString()] at the call. *)
Definition post_strings (now : list N) (stringStore : list (list N * StoredObj))
    (value : option json) : Outcome Body * list (list N * StoredObj) :=
  match value with
  | None => (Responded 422 (ErrorBody "Missing 'value' field"), stringStore)
  | Some (JString v) =>
      let str := Js.trim v in
      if negb (Js.truthy str)
      then (Responded 400 (ErrorBody "'value' cannot be empty"), stringStore)
      else
        let hash := sha256_hex str in
        if JsMap.has hash stringStore
        then (Responded 409 (ErrorBody "String already exists"), stringStore)
        else
          let obj := {| id := hash; value := str;
                        properties := make_properties str hash;
                        created_at := now |} in
          (Responded 201 (RecordBody obj), JsMap.set hash obj stringStore)
  | Some _ => (Responded 422 (ErrorBody "'value' must be a string"), stringStore)
  end.

(** GET /strings/:value; the path parameter is a string. *)
Definition get_string (stringStore : list (list N * StoredObj)) (value : list N)
    : Outcome Body :=
  if negb (Js.truthy value) then Responded 400 (ErrorBody "Invalid string value")
  else
    let str := Js.trim value in
    if negb (Js.truthy str) then Responded 400 (ErrorBody "String cannot be empty")
    else
      let hash := sha256_hex str in
      match JsMap.get hash stringStore with
      | None => Responded 404 (ErrorBody "String not found")
      | Some stored => Responded 200 (RecordBody stored)
      end.

Definition bad_bool (p : option (list N)) : bool :=
  match p with
  | Some s => Js.truthy s
              && negb (array_includes [Js.js "true"; Js.js "false"] (toLowerCase s))
  | None => false
  end.

Definition bad_int (p : option (list N)) : bool :=
  match p with
  | Some s => Js.truthy s && Js.isNaN (Js.parseInt s)
  | None => false
  end.

Definition bad_char (p : option (list N)) : bool :=
  match p with
  | Some s => Js.truthy s && negb (Nat.eqb (List.length s) 1)
  | None => false
  end.

Definition int_filter (p : option (list N)) : option Js.Number :=
  match p with
  | Some s => if Js.truthy s then Some (Js.parseInt s) else None
  | None => None
  end.

(** lines 107-113 *)
Definition make_filters (q : Query) : Filters :=
  {| f_is_palindrome :=
       match q_is_palindrome q with
       | Some s => Some (Js.str_eqb (toLowerCase s) (Js.js "true"))
       | None => None
       end;
     f_min_length := int_filter (q_min_length q);
     f_max_length := int_filter (q_max_length q);
     f_word_count := int_filter (q_word_count q);
     f_contains_character :=
       match q_contains_character q with
       | Some s => if Js.truthy s then Some s else None
       | None => None
       end |}.

(** lines 115-125: the callback of [filter] *)
Definition matches (filters : Filters) (obj : StoredObj) : bool :=
  let props := properties obj in
  if match f_is_palindrome filters with
     | Some b => negb (Bool.eqb (is_palindrome props) b)
     | None => false
     end then false
  else if match f_min_length filters with
          | Some n => Js.lt (Js.of_nat (length props)) n
          | None => false
          end then false
  else if match f_max_length filters with
          | Some n => Js.gt (Js.of_nat (length props)) n
          | None => false
          end then false
  else if match f_word_count filters with
          | Some n => Js.strict_ne (Js.of_nat (word_count props)) n
          | None => false
          end then false
  else if match f_contains_character filters with
          | Some c => Js.truthy c && falsy_count (character_frequency_map props) c
          | None => false
          end then false
  else true.

(** GET /strings *)
Definition get_strings (stringStore : list (list N * StoredObj)) (q : Query)
    : Outcome Body :=
  if bad_bool (q_is_palindrome q)
  then Responded 400 (ErrorBody "is_palindrome must be true or false")
  else if bad_int (q_min_length q)
  then Responded 400 (ErrorBody "min_length must be an integer")
  else if bad_int (q_max_length q)
  then Responded 400 (ErrorBody "max_length must be an integer")
  else if bad_int (q_word_count q)
  then Responded 400 (ErrorBody "word_count must be an integer")
  else if bad_char (q_contains_character q)
  then Responded 400 (ErrorBody "contains_character must be a single character")
  else
    let filters := make_filters q in
    let filtered := List.filter (matches filters) (JsMap.values stringStore) in
    Responded 200 (ListBody filtered (List.length filtered) filters).

(** lines 135-150 *)
Definition parseNaturalLanguage (query : list N) : option Filters :=
  let query := toLowerCase query in
  let pal := Js.includes query (Js.js "palindrome")
             || Js.includes query (Js.js "palindromic") in
  let single := Js.includes query (Js.js "single word") in
  let lengthMatch := Js.str_match lengthRe query in
  let containsMatch := Js.str_match containsRe query in
  let filters :=
    {| f_is_palindrome := if pal then Some true else None;
       f_word_count := if single then Some (Js.Num 1) else None;
       f_min_length :=
         match lengthMatch with
         | Some m => Some (Js.add (parseInt_capture (Js.capture m 2)) (Js.Num 1))
         | None => None
         end;
       f_max_length := None;
       f_contains_character :=
         match containsMatch with
         | Some m => Js.capture m 1
         | None => None
         end |} in
  let keys := b2n pal + b2n single
              + b2n (bool_decide (is_Some lengthMatch))
              + b2n (bool_decide (is_Some containsMatch)) in
  if Nat.eqb keys 0 then None else Some filters.

(** lines 164-171: the callback of [filter] *)
Definition nl_matches (parsedFilters : Filters) (obj : StoredObj) : bool :=
  let props := properties obj in
  if match f_is_palindrome parsedFilters with
     | Some b => negb (Bool.eqb (is_palindrome props) b)
     | None => false
     end then false
  else if match f_word_count parsedFilters with
          | Some n => Js.strict_ne (Js.of_nat (word_count props)) n
          | None => false
          end then false
  else if match f_min_length parsedFilters with
          | Some n => Js.lt (Js.of_nat (length props)) n
          | None => false
          end then false
  else if match f_contains_character parsedFilters with
          | Some c => falsy_count (character_frequency_map props) c
          | None => false
          end then false
  else true.

(** The handler function registered for
    GET /strings/filter-by-natural-language (lines 153-181); [query] is
    [undefined] or a string. Which requests reach it is decided by
    [routes] below. *)
Definition get_filter_by_natural_language (stringStore : list (list N * StoredObj))
    (query : option (list N)) : Outcome Body :=
  match query with
  | Some q =>
      if negb (Js.truthy q) then Responded 400 (ErrorBody "Query parameter is required")
      else
        match parseNaturalLanguage q with
        | None => Responded 400 (ErrorBody "Unable to parse natural language query")
        | Some parsedFilters =>
            let filtered := List.filter (nl_matches parsedFilters) (JsMap.values stringStore) in
            Responded 200 (NlBody filtered (List.length filtered) q parsedFilters)
        end
  | None => Responded 400 (ErrorBody "Query parameter is required")
  end.

(** DELETE /strings/:value *)
Definition delete_string (stringStore : list (list N * StoredObj)) (value : list N)
    : Outcome Body * list (list N * StoredObj) :=
  if negb (Js.truthy value)
  then (Responded 400 (ErrorBody "Invalid string value"), stringStore)
  else
    let str := Js.trim value in
    if negb (Js.truthy str)
    then (Responded 400 (ErrorBody "String cannot be empty"), stringStore)
    else
      let hash := sha256_hex str in
      if negb (JsMap.has hash stringStore)
      then (Responded 404 (ErrorBody "String not found"), stringStore)
      else (Responded 204 NoBody, JsMap.delete hash stringStore).
(** [req.query] of GET /strings, by the names of line 89. *)
Definition query_of (req : Request) : Query :=
  {| q_is_palindrome := req_query req (Js.js "is_palindrome");
     q_min_length := req_query req (Js.js "min_length");
     q_max_length := req_query req (Js.js "max_length");
     q_word_count := req_query req (Js.js "word_count");
     q_contains_character := req_query req (Js.js "contains_character") |}.

(** The routes in the order of their registration: lines 15, 66, 88, 153
    and 184. *)
Definition routes : list (Route (list (list N * StoredObj)) Body) :=
  [ {| route_method := POST; route_path := [Literal (Js.js "strings")];
       route_handler := fun now st req _ => post_strings now st (req_body_value req) |};
    {| route_method := GET; route_path := [Literal (Js.js "strings"); Param];
       route_handler := fun _ st _ params => (get_string st (List.hd [] params), st) |};
    {| route_method := GET; route_path := [Literal (Js.js "strings")];
       route_handler := fun _ st req _ => (get_strings st (query_of req), st) |};
    {| route_method := GET;
       route_path := [Literal (Js.js "strings");
                      Literal (Js.js "filter-by-natural-language")];
       route_handler := fun _ st req _ =>
         (get_filter_by_natural_language st (req_query req (Js.js "query")), st) |};
    {| route_method := DELETE; route_path := [Literal (Js.js "strings"); Param];
       route_handler := fun _ st _ params => delete_string st (List.hd [] params) |} ].

(** The server: what a request gets and the store it leaves. *)
Definition server (now : list N) (stringStore : list (list N * StoredObj))
    (req : Request) : option (Outcome Body * list (list N * StoredObj)) :=
  dispatch routes now stringStore req.
End Server.

End Part000.

(** ** src/index.js *)

Module IndexJs.

Record Properties := {
  length : nat;
  is_palidrome : bool;
  unique_characters : nat;
  word_count : nat;
  sha256_hash : list N;
  character_frequency_map : gmap (list N) nat;
}.

Record StoredObj := {
  id : list N;
  value : list N;
  properties : Properties;
  created_at : list N;
}.

(** The [filters] object of GET /strings/ (lines 88-94): [is_palidrome] is
    the result of [===], always a boolean; [None] is [null]. *)
Record Filters := {
  f_is_palidrome : bool;
  f_min_length : option Js.Number;
  f_max_length : option Js.Number;
  f_word_count : option Js.Number;
  f_contains_character : option (list N);
}.

(** The object built by [parseNaturalLanguage]; [None] is a missing key.
    [contains_character] holds the whole match array. *)
Record NlFilters := {
  nl_is_palidrome : option bool;
  nl_word_count : option Js.Number;
  nl_min_length : option Js.Number;
  nl_contains_character : option (list (option (list N)));
}.

Record Query := {
  q_is_palidrome : option (list N);
  q_min_length : option (list N);
  q_max_length : option (list N);
  q_word_count : option (list N);
  q_contains_character : option (list N);
}.

Inductive Body :=
| ErrorBody (error : string)
| RecordBody (obj : option StoredObj)  (* [res.json(stored)], [stored] possibly [undefined] *)
| ListBody (data : list StoredObj) (count : nat) (filtered_applied : Filters)
| NlBody (data : list StoredObj) (count : nat) (original : list N) (parsed_filters : NlFilters)
| NoBody.

Section Server.
Context {B : Builtins}.

(** lines 29-30 *)
Definition isPalidrome (str : list N) : bool :=
  let lower := toLowerCase str in
  Js.str_eqb lower (Js.join_empty (rev (Js.split_units lower))).

(** lines 35-36: the body of the loop, on the set and the frequency
    object *)
Definition loop_body (state : gset (list N) * gmap (list N) nat) (ch : list N)
    : gset (list N) * gmap (list N) nat :=
  let '(uniqueChars, charFreq) := state in
  ({[ch]} ∪ uniqueChars, <[ch := default 0 (charFreq !! ch) + 1]> charFreq).

(** lines 32-37 *)
Definition char_loop (str : list N) : gset (list N) * gmap (list N) nat :=
  fold_left loop_body (Js.code_points str) (∅, ∅).
Definition uniqueChars (str : list N) : gset (list N) := fst (char_loop str).
Definition charFreq (str : list N) : gmap (list N) nat := snd (char_loop str).

(** line 39 *)
Definition wordCount (str : list N) : nat :=
  List.length (Js.filter_Boolean (Js.split_ws str)).

(** lines 41-48 *)
Definition make_properties (str hash : list N) : Properties :=
  {| length := List.length str;
     is_palidrome := isPalidrome str;
     unique_characters := size (uniqueChars str);
     word_count := wordCount str;
     sha256_hash := hash;
     character_frequency_map := charFreq str |}.

(** POST /strings *)
Definition post_strings (now : list N) (stringStore : list (list N * StoredObj))
    (value : option json) : Outcome Body * list (list N * StoredObj) :=
  match value with
  | None => (Responded 400 (ErrorBody "Missing 'value', field"), stringStore)
  | Some (JString v) =>
      let str := Js.trim v in
      if negb (Js.truthy str)
      then (Responded 400 (ErrorBody "'value' cannot be empty"), stringStore)
      else
        let hash := sha256_hex str in
        if JsMap.has hash stringStore
        then (Responded 409 (ErrorBody "String already exists"), stringStore)
        else
          let obj := {| id := hash; value := str;
                        properties := make_properties str hash;
                        created_at := now |} in
          (Responded 201 (RecordBody (Some obj)), JsMap.set hash obj stringStore)
  | Some _ => (Responded 422 (ErrorBody "'value' must be a string"), stringStore)
  end.

(** GET /strings/:value (lines 62-75): the result of [stringStore.get]
    is sent with status 200 whatever it is. *)
Definition get_string (stringStore : list (list N * StoredObj)) (value : list N)
    : Outcome Body :=
  if negb (Js.truthy value) then Responded 400 (ErrorBody "Invalid string value")
  else
    let str := Js.trim value in
    if negb (Js.truthy str) then Responded 400 (ErrorBody "String cannot be empty")
    else
      let hash := sha256_hex str in
      let stored := JsMap.get hash stringStore in
      Responded 200 (RecordBody stored).

Definition bad_bool (p : option (list N)) : bool :=
  match p with
  | Some s => Js.truthy s
              && negb (array_includes [Js.js "true"; Js.js "false"] (toLowerCase s))
  | None => false
  end.

Definition bad_int (p : option (list N)) : bool :=
  match p with
  | Some s => Js.truthy s && Js.isNaN (Js.parseInt s)
  | None => false
  end.

Definition bad_char (p : option (list N)) : bool :=
  match p with
  | Some s => Js.truthy s && negb (Nat.eqb (List.length s) 1)
  | None => false
  end.

Definition int_filter (p : option (list N)) : option Js.Number :=
  match p with
  | Some s => if Js.truthy s then Some (Js.parseInt s) else None
  | None => None
  end.

(** lines 88-94; [is_palidrome?.toLowerCase() === 'true'] is [false]
    when the parameter is [undefined]. *)
Definition make_filters (q : Query) : Filters :=
  {| f_is_palidrome :=
       match q_is_palidrome q with
       | Some s => Js.str_eqb (toLowerCase s) (Js.js "true")
       | None => false
       end;
     f_min_length := int_filter (q_min_length q);
     f_max_length := int_filter (q_max_length q);
     f_word_count := int_filter (q_word_count q);
     f_contains_character :=
       match q_contains_character q with
       | Some s => if Js.truthy s then Some s else None
       | None => None
       end |}.

(** lines 96-105: the callback of [filter]; [filters.is_palidrome] is a
    boolean, so [!== undefined] holds; [word_count] is not looked at. *)
Definition matches (filters : Filters) (obj : StoredObj) : bool :=
  let props := properties obj in
  if negb (Bool.eqb (f_is_palidrome filters) (is_palidrome props)) then false
  else if match f_min_length filters with
          | Some n => Js.lt (Js.of_nat (length props)) n
          | None => false
          end then false
  else if match f_max_length filters with
          | Some n => Js.gt (Js.of_nat (length props)) n
          | None => false
          end then false
  else if match f_contains_character filters with
          | Some c => Js.truthy c && falsy_count (character_frequency_map props) c
          | None => false
          end then false
  else true.

(** GET /strings/ *)
Definition get_strings (stringStore : list (list N * StoredObj)) (q : Query)
    : Outcome Body :=
  if bad_bool (q_is_palidrome q)
  then Responded 400 (ErrorBody "is_palidrome must be true or false")
  else if bad_int (q_min_length q)
  then Responded 400 (ErrorBody "min_length must be an interger")
  else if bad_int (q_max_length q)
  then Responded 400 (ErrorBody "max_length must be an interger")
  else if bad_int (q_word_count q)
  then Responded 400 (ErrorBody "word_count must be an interger")
  else if bad_char (q_contains_character q)
  then Responded 400 (ErrorBody "contains_character must be a single character")
  else
    let filters := make_filters q in
    let filtered := List.filter (matches filters) (JsMap.values stringStore) in
    Responded 200 (ListBody filtered (List.length filtered) filters).

(** lines 114-132 *)
Definition parseNaturalLanguage (query : list N) : option NlFilters :=
  let query := toLowerCase query in
  let pal := Js.includes query (Js.js "palindromic")
             || Js.includes query (Js.js "palidrome") in
  let single := Js.includes query (Js.js "single word") in
  let lengthMatch := Js.str_match lengthRe query in
  let containsMatch := Js.str_match containsRe query in
  let filters :=
    {| nl_is_palidrome := if pal then Some true else None;
       nl_word_count := if single then Some (Js.Num 1) else None;
       nl_min_length :=
         match lengthMatch with
         | Some m => Some (Js.add (parseInt_capture (Js.capture m 2)) (Js.Num 1))
         | None => None
         end;
       nl_contains_character := containsMatch |} in
  let keys := b2n pal + b2n single
              + b2n (bool_decide (is_Some lengthMatch))
              + b2n (bool_decide (is_Some containsMatch)) in
  if Nat.eqb keys 0 then None else Some filters.

(** The functions declared at the top level of the file, by name. *)
Definition declared_function (name : string) : option (list N -> option NlFilters) :=
  if String.eqb name "parseNaturalLanguage" then Some parseNaturalLanguage else None.

(** [String(a)] of a match array: the elements joined by a comma,
    [undefined] as the empty string. *)
Fixpoint array_to_string (a : list (option (list N))) : list N :=
  match a with
  | [] => []
  | [x] => default [] x
  | x :: t => default [] x ++ Js.js "," ++ array_to_string t
  end.

(** lines 145-152: the callback of [filter]. The stored properties and
    the parsed filters have a key [is_palidrome], so [is_palindrome] is
    [undefined] on both and the first test never excludes. *)
Definition nl_matches (parsedFilters : NlFilters) (obj : StoredObj) : bool :=
  let props := properties obj in
  if match nl_word_count parsedFilters with
     | Some n => Js.strict_ne (Js.of_nat (word_count props)) n
     | None => false
     end then false
  else if match nl_min_length parsedFilters with
          | Some n => Js.lt (Js.of_nat (length props)) n
          | None => false
          end then false
  else if match nl_contains_character parsedFilters with
          | Some m => falsy_count (character_frequency_map props) (array_to_string m)
          | None => false
          end then false
  else true.

(** The handler function registered for
    GET /strings/filter-by-natural-language (lines 134-162). Line 140
    calls [parseNatural], a name the file does not declare: evaluating it
    throws a ReferenceError. Which requests reach the handler is decided by
    [routes] below. *)
Definition get_filter_by_natural_language (stringStore : list (list N * StoredObj))
    (query : option (list N)) : Outcome Body :=
  match query with
  | Some q =>
      if negb (Js.truthy q) then Responded 400 (ErrorBody "Query parameter is required")
      else
        match declared_function "parseNatural" with
        | None => Threw (ReferenceError "parseNatural")
        | Some parseNatural =>
            match parseNatural q with
            | None => Responded 400 (ErrorBody "Unable to parse natural language query")
            | Some parsedFilters =>
                let filtered :=
                  List.filter (nl_matches parsedFilters) (JsMap.values stringStore) in
                Responded 200 (NlBody filtered (List.length filtered) q parsedFilters)
            end
        end
  | None => Responded 400 (ErrorBody "Query parameter is required")
  end.

(** DELETE /strings/:value *)
Definition delete_string (stringStore : list (list N * StoredObj)) (value : list N)
    : Outcome Body * list (list N * StoredObj) :=
  if negb (Js.truthy value)
  then (Responded 400 (ErrorBody "Invalid string value"), stringStore)
  else
    let str := Js.trim value in
    if negb (Js.truthy str)
    then (Responded 400 (ErrorBody "String cannot be empty"), stringStore)
    else
      let hash := sha256_hex str in
      if negb (JsMap.has hash stringStore)
      then (Responded 404 (ErrorBody "String not found"), stringStore)
      else (Responded 204 NoBody, JsMap.delete hash stringStore).
(** [req.query] of GET /strings/, by the names of line 78. *)
Definition query_of (req : Request) : Query :=
  {| q_is_palidrome := req_query req (Js.js "is_palidrome");
     q_min_length := req_query req (Js.js "min_length");
     q_max_length := req_query req (Js.js "max_length");
     q_word_count := req_query req (Js.js "word_count");
     q_contains_character := req_query req (Js.js "contains_character") |}.

(** The routes in the order of their registration: lines 16, 62, 77, 134
    and 164. The path of line 77 ends with a slash, which the matching
    ignores. *)
Definition routes : list (Route (list (list N * StoredObj)) Body) :=
  [ {| route_method := POST; route_path := [Literal (Js.js "strings")];
       route_handler := fun now st req _ => post_strings now st (req_body_value req) |};
    {| route_method := GET; route_path := [Literal (Js.js "strings"); Param];
       route_handler := fun _ st _ params => (get_string st (List.hd [] params), st) |};
    {| route_method := GET; route_path := [Literal (Js.js "strings")];
       route_handler := fun _ st req _ => (get_strings st (query_of req), st) |};
    {| route_method := GET;
       route_path := [Literal (Js.js "strings");
                      Literal (Js.js "filter-by-natural-language")];
       route_handler := fun _ st req _ =>
         (get_filter_by_natural_language st (req_query req (Js.js "query")), st) |};
    {| route_method := DELETE; route_path := [Literal (Js.js "strings"); Param];
       route_handler := fun _ st _ params => delete_string st (List.hd [] params) |} ].

(** The server: what a request gets and the store it leaves. *)
Definition server (now : list N) (stringStore : list (list N * StoredObj))
    (req : Request) : option (Outcome Body * list (list N * StoredObj)) :=
  dispatch routes now stringStore req.
End Server.

End IndexJs.

(** ** Vocabulary of the specification *)

(** The number a string of decimal digits writes. *)
Definition decimal (ds : list N) : Z :=
  fold_left (fun acc d => (acc * 10 + (Z.of_N d - 48))%Z) ds 0%Z.

(** The text of "long(er) than <N> character". *)
Definition length_phrase (er : bool) (ds : list N) : list N :=
  Js.js "long" ++ (if er then Js.js "er" else []) ++ Js.js " than " ++ ds
    ++ Js.js " character".

(** The text of "contains (the) letter <c>". *)
Definition contains_phrase (the : bool) (c : N) : list N :=
  Js.js "contains" ++ (if the then Js.js " the" else []) ++ Js.js " letter " ++ [c].

(** The sum of the counts of a frequency object. *)
Definition sum_counts (m : gmap (list N) nat) : nat :=
  map_fold (fun _ n acc => n + acc) 0 m.

(** The lowercase form equals its own reverse, taken code unit by code
    unit. *)
Definition reads_same_reversed `{B : Builtins} (s : list N) : Prop :=
  toLowerCase s = rev (toLowerCase s).

(** A string reversed character by character, a character being a code
    point as for [unique_characters] and [character_frequency_map]. *)
Definition reverse_by_code_point (s : list N) : list N :=
  concat (rev (Js.code_points s)).

(** "The lowercase form equals its own character-reversed form". *)
Definition reads_same_character_reversed `{B : Builtins} (s : list N) : Prop :=
  toLowerCase s = reverse_by_code_point (toLowerCase s).


(** A request to GET /strings with no query parameter, for either file. *)
Definition no_parameters_000 : Part000.Query :=
  {| Part000.q_is_palindrome := None; Part000.q_min_length := None;
     Part000.q_max_length := None; Part000.q_word_count := None;
     Part000.q_contains_character := None |}.

Definition no_parameters_index : IndexJs.Query :=
  {| IndexJs.q_is_palidrome := None; IndexJs.q_min_length := None;
     IndexJs.q_max_length := None; IndexJs.q_word_count := None;
     IndexJs.q_contains_character := None |}.

(** A request to GET /strings/ with [word_count] as the only parameter. *)
Definition only_word_count_index (n : list N) : IndexJs.Query :=
  {| IndexJs.q_is_palidrome := None; IndexJs.q_min_length := None;
     IndexJs.q_max_length := None; IndexJs.q_word_count := Some n;
     IndexJs.q_contains_character := None |}.

(** The FilterSet with no predicate. *)
Definition no_filters : Part000.Filters :=
  {| Part000.f_is_palindrome := None; Part000.f_min_length := None;
     Part000.f_max_length := None; Part000.f_word_count := None;
     Part000.f_contains_character := None |}.

(** ** Vocabulary for the properties of the handlers *)

(** The number of places of [s] where a word starts: a code unit that is
    not whitespace, at the start or right after whitespace. *)
Fixpoint word_starts (after_space : bool) (s : list N) : nat :=
  match s with
  | [] => 0
  | u :: t =>
      (if after_space && negb (Js.is_whitespace u) then 1 else 0)
      + word_starts (Js.is_whitespace u) t
  end.

(** How often the code point [ch] occurs among the code points [cps]. *)
Definition occurrences (ch : list N) (cps : list (list N)) : nat :=
  List.length (List.filter (fun x => bool_decide (x = ch)) cps).

(** What every store built by the handlers of the unnamed file satisfies:
    the keys are distinct, and every record sits under its [id], which is
    the digest of its [value], a trimmed non-empty string whose properties
    are the computed ones. *)
Definition record_ok_000 `{B : Builtins} (entry : list N * Part000.StoredObj) : Prop :=
  let obj := snd entry in
  fst entry = Part000.id obj
  /\ Part000.id obj = sha256_hex (Part000.value obj)
  /\ Part000.value obj <> []
  /\ Js.trim (Part000.value obj) = Part000.value obj
  /\ Part000.properties obj
     = Part000.make_properties (Part000.value obj) (Part000.id obj).

Definition store_ok_000 `{B : Builtins} (st : list (list N * Part000.StoredObj)) : Prop :=
  NoDup (map fst st) /\ Forall record_ok_000 st.

(** The same for src/index.js. *)
Definition record_ok_index `{B : Builtins} (entry : list N * IndexJs.StoredObj) : Prop :=
  let obj := snd entry in
  fst entry = IndexJs.id obj
  /\ IndexJs.id obj = sha256_hex (IndexJs.value obj)
  /\ IndexJs.value obj <> []
  /\ Js.trim (IndexJs.value obj) = IndexJs.value obj
  /\ IndexJs.properties obj
     = IndexJs.make_properties (IndexJs.value obj) (IndexJs.id obj).

Definition store_ok_index `{B : Builtins} (st : list (list N * IndexJs.StoredObj)) : Prop :=
  NoDup (map fst st) /\ Forall record_ok_index st.

(** The status of a response; 0 stands for a handler that threw. *)
Definition status_of {Bd : Type} (o : Outcome Bd) : nat :=
  match o with
  | Responded status _ => status
  | Threw _ => 0
  end.

(** A request to GET /strings of the unnamed file with the two length
    bounds as the only parameters. *)
Definition length_bounds_000 (lo hi : list N) : Part000.Query :=
  {| Part000.q_is_palindrome := None; Part000.q_min_length := Some lo;
     Part000.q_max_length := Some hi; Part000.q_word_count := None;
     Part000.q_contains_character := None |}.

(** ... with [is_palindrome] as the only parameter. *)
Definition only_is_palindrome_000 (p : list N) : Part000.Query :=
  {| Part000.q_is_palindrome := Some p; Part000.q_min_length := None;
     Part000.q_max_length := None; Part000.q_word_count := None;
     Part000.q_contains_character := None |}.

(** ... with [contains_character] as the only parameter. *)
Definition only_contains_000 (c : list N) : Part000.Query :=
  {| Part000.q_is_palindrome := None; Part000.q_min_length := None;
     Part000.q_max_length := None; Part000.q_word_count := None;
     Part000.q_contains_character := Some c |}.

(** A store of each file that holds the record of the string ab, for
    evaluation. *)
Definition sample_store_000 : list (list N * Part000.StoredObj) :=
  snd (Part000.post_strings (B := AsciiHost) (Js.js "t") [] (Some (JString (Js.js "ab")))).

Definition sample_store_index : list (list N * IndexJs.StoredObj) :=
  snd (IndexJs.post_strings (B := AsciiHost) (Js.js "t") [] (Some (JString (Js.js "ab")))).

(** A query with its [min_length] parameter replaced, for either file. *)
Definition with_min_length_000 (q : Part000.Query) (p : list N) : Part000.Query :=
  {| Part000.q_is_palindrome := Part000.q_is_palindrome q;
     Part000.q_min_length := Some p;
     Part000.q_max_length := Part000.q_max_length q;
     Part000.q_word_count := Part000.q_word_count q;
     Part000.q_contains_character := Part000.q_contains_character q |}.

Definition with_min_length_index (q : IndexJs.Query) (p : list N) : IndexJs.Query :=
  {| IndexJs.q_is_palidrome := IndexJs.q_is_palidrome q;
     IndexJs.q_min_length := Some p;
     IndexJs.q_max_length := IndexJs.q_max_length q;
     IndexJs.q_word_count := IndexJs.q_word_count q;
     IndexJs.q_contains_character := IndexJs.q_contains_character q |}.

(** ** Strings: lemmas *)

Lemma starts_with_spec p s :
  Js.starts_with p s = true <-> exists x, s = p ++ x.
Proof.
  revert s. induction p as [|a p IH]; intros s; simpl.
  - split; eauto.
  - destruct s as [|b s].
    + split; [discriminate | intros [x Hx]; discriminate].
    + rewrite andb_true_iff, N.eqb_eq, IH. split.
      * intros [-> [x ->]]. eauto.
      * intros [x Hx]. injection Hx as -> ->. eauto.
Qed.

Lemma starts_with_app p x : Js.starts_with p (p ++ x) = true.
Proof. apply starts_with_spec. eauto. Qed.

Lemma includes_spec s sub :
  Js.includes s sub = true <-> exists pre post, s = pre ++ sub ++ post.
Proof.
  induction s as [|u s IH]; simpl.
  - rewrite orb_false_r, starts_with_spec. split.
    + intros [x Hx]. exists [], x. exact Hx.
    + intros (pre & post & H). destruct pre; [eauto | discriminate].
  - rewrite orb_true_iff, starts_with_spec, IH. split.
    + intros [[x Hx] | (pre & post & ->)].
      * exists [], x. exact Hx.
      * exists (u :: pre), post. reflexivity.
    + intros (pre & post & H). destruct pre as [|v pre].
      * left. eauto.
      * right. injection H as _ ->. eauto.
Qed.

Lemma join_rev_split_units (l : list N) :
  Js.join_empty (rev (Js.split_units l)) = rev l.
Proof.
  unfold Js.join_empty, Js.split_units.
  induction l as [|u l IH]; simpl; [reflexivity|].
  rewrite concat_app, IH. simpl. reflexivity.
Qed.

Lemma code_points_length_le (s : list N) :
  List.length (Js.code_points s) <= List.length s.
Proof.
  assert (H : forall n s, List.length s <= n ->
              List.length (Js.code_points s) <= List.length s).
  { clear s. induction n as [|n IH]; intros s Hs.
    - destruct s; simpl in *; lia.
    - destruct s as [|u [|v t]]; simpl in *; try lia.
      destruct (Js.is_high_surrogate u && Js.is_low_surrogate v); simpl.
      + specialize (IH t). lia.
      + specialize (IH (v :: t)). simpl in IH. lia. }
  apply (H (List.length s)). lia.
Qed.

Lemma code_points_length_no_pair (s : list N) :
  Js.has_surrogate_pair s = false ->
  List.length (Js.code_points s) = List.length s.
Proof.
  induction s as [|u t IH]; [reflexivity|].
  destruct t as [|v t']; [reflexivity|].
  intros H. change (Js.has_surrogate_pair (u :: v :: t'))
    with ((Js.is_high_surrogate u && Js.is_low_surrogate v)
          || Js.has_surrogate_pair (v :: t')) in H.
  apply orb_false_iff in H as [Hp Ht].
  change (Js.code_points (u :: v :: t'))
    with (if Js.is_high_surrogate u && Js.is_low_surrogate v
          then [u; v] :: Js.code_points t' else [u] :: Js.code_points (v :: t')).
  rewrite Hp. cbn [List.length]. rewrite (IH Ht). reflexivity.
Qed.

(** ** The frequency object: lemmas *)

Lemma sum_counts_empty : sum_counts ∅ = 0.
Proof. unfold sum_counts. apply map_fold_empty. Qed.

Lemma sum_counts_bump (m : gmap (list N) nat) (ch : list N) :
  sum_counts (<[ch := default 0 (m !! ch) + 1]> m) = sum_counts m + 1.
Proof.
  unfold sum_counts.
  destruct (m !! ch) as [n|] eqn:E; simpl.
  - rewrite <- insert_delete_eq.
    rewrite map_fold_insert_L; [| intros; lia | apply lookup_delete_eq].
    rewrite (map_fold_delete_L _ _ ch n m); [lia | intros; lia | exact E].
  - rewrite map_fold_insert_L; [lia | intros; lia | exact E].
Qed.

(** The loop invariant of the character count, for any starting object. *)
Lemma freq_fold_invariant (cps : list (list N)) (m0 : gmap (list N) nat) :
  let m := fold_left (fun m ch => <[ch := default 0 (m !! ch) + 1]> m) cps m0 in
  sum_counts m = sum_counts m0 + List.length cps
  /\ dom m = list_to_set cps ∪ dom m0
  /\ ((forall k n, m0 !! k = Some n -> 1 <= n) -> forall k n, m !! k = Some n -> 1 <= n).
Proof.
  revert m0. induction cps as [|ch cps IH]; intros m0; simpl.
  - split; [lia|]. split; [by rewrite (left_id_L ∅ (∪))|]. auto.
  - destruct (IH (<[ch := default 0 (m0 !! ch) + 1]> m0)) as (Hs & Hd & Hp).
    split; [rewrite Hs, sum_counts_bump; lia|].
    split.
    { rewrite Hd, dom_insert_L, (assoc_L (∪)).
      by rewrite (comm_L (∪) (list_to_set cps)). }
    intros H0. apply Hp. intros k n.
    rewrite lookup_insert. case_decide.
    + intros [= <-]. lia.
    + apply H0.
Qed.

(** ** The store: lemmas *)

Section MapLemmas.
Context {V : Type}.
Implicit Types (m : list (list N * V)) (k : list N) (v : V).

Lemma map_get_set_eq k v m : JsMap.get k (JsMap.set k v m) = Some v.
Proof.
  induction m as [|[k' v'] m IH]; simpl.
  - rewrite bool_decide_eq_true_2; reflexivity.
  - destruct (bool_decide (k = k')) eqn:E; simpl.
    + rewrite bool_decide_eq_true_2; reflexivity.
    + rewrite E. exact IH.
Qed.

Lemma map_has_set_eq k v m : JsMap.has k (JsMap.set k v m) = true.
Proof. unfold JsMap.has. rewrite map_get_set_eq. reflexivity. Qed.

Lemma map_get_set_ne k k' v m :
  k <> k' -> JsMap.get k' (JsMap.set k v m) = JsMap.get k' m.
Proof.
  intros Hne. induction m as [|[k0 v0] m IH]; simpl.
  - rewrite bool_decide_eq_false_2; [reflexivity | congruence].
  - destruct (bool_decide (k = k0)) eqn:E; simpl.
    + apply bool_decide_eq_true_1 in E as <-.
      rewrite !bool_decide_eq_false_2 by congruence. reflexivity.
    + rewrite IH. reflexivity.
Qed.

Lemma map_has_false_get k m : JsMap.has k m = false <-> JsMap.get k m = None.
Proof. unfold JsMap.has. destruct (JsMap.get k m); split; congruence. Qed.

Lemma map_values_set_fresh k v m :
  JsMap.has k m = false -> JsMap.values (JsMap.set k v m) = JsMap.values m ++ [v].
Proof.
  unfold JsMap.values, JsMap.has.
  induction m as [|[k0 v0] m IH]; simpl; [reflexivity|].
  destruct (bool_decide (k = k0)); [discriminate|].
  intros H. simpl. rewrite (IH H). reflexivity.
Qed.
End MapLemmas.

(** ** Numbers: lemmas *)

Lemma round53_exact (z : Z) : (0 <= z <= 2 ^ 53)%Z -> Js.round53 z = z.
Proof.
  intros [H0 H1]. unfold Js.round53.
  destruct (Z.eq_dec z (2 ^ 53)%Z) as [->|Hne]; [reflexivity|].
  destruct (Z.eq_dec z 0%Z) as [->|Hz]; [reflexivity|].
  assert (Z.log2 z < 53)%Z by (apply Z.log2_lt_pow2; lia).
  destruct (Z.leb_spec (Z.log2 z + 1) 53); [reflexivity | lia].
Qed.

Lemma to_double_exact (z : Z) : (0 <= z <= 2 ^ 53)%Z -> Js.to_double z = Js.Num z.
Proof.
  intros H. unfold Js.to_double.
  rewrite Z.abs_eq by lia. rewrite round53_exact by exact H.
  destruct (Z.leb_spec (2 ^ 1024) z) as [Hbig|_].
  - exfalso. assert (2 ^ 53 < 2 ^ 1024)%Z by (apply Z.pow_lt_mono_r; lia). lia.
  - f_equal. destruct (Z.eq_dec z 0%Z) as [->|]; [reflexivity|].
    rewrite Z.sgn_pos by lia. lia.
Qed.

Lemma digit_value_decimal (u : N) :
  Js.is_digit u = true -> Js.digit_value 10 u = Some (Z.of_N u - 48)%Z.
Proof.
  intros H. unfold Js.digit_value. rewrite H.
  unfold Js.is_digit in H. apply andb_true_iff in H as [H1 H2].
  apply N.leb_le in H1, H2.
  destruct (Z.ltb_spec (Z.of_N u - 48) 10); [reflexivity | lia].
Qed.

Lemma digits_go_decimal (ds : list N) (acc : Z) (seen : bool) :
  Forall (fun u => Js.is_digit u = true) ds -> ds <> [] \/ seen = true ->
  Js.digits_go 10 acc seen ds
  = Some (fold_left (fun acc d => (acc * 10 + (Z.of_N d - 48))%Z) ds acc).
Proof.
  intros Hds. revert acc seen.
  induction Hds as [|d ds Hd _ IH]; intros acc seen Hne; simpl.
  - destruct Hne as [Hne | ->]; [congruence | reflexivity].
  - rewrite (digit_value_decimal d Hd). apply IH. right. reflexivity.
Qed.

Lemma decimal_nonneg_from (ds : list N) (acc : Z) :
  Forall (fun u => Js.is_digit u = true) ds -> (0 <= acc)%Z ->
  (0 <= fold_left (fun acc d => (acc * 10 + (Z.of_N d - 48))%Z) ds acc)%Z.
Proof.
  intros Hds. revert acc.
  induction Hds as [|d ds Hd _ IH]; intros acc Hacc; simpl; [exact Hacc|].
  apply IH. unfold Js.is_digit in Hd. apply andb_true_iff in Hd as [H1 H2].
  apply N.leb_le in H1, H2. lia.
Qed.

Lemma decimal_nonneg (ds : list N) :
  Forall (fun u => Js.is_digit u = true) ds -> (0 <= decimal ds)%Z.
Proof. intros H. apply decimal_nonneg_from; [exact H | lia]. Qed.

Lemma digit_not_whitespace (u : N) : Js.is_digit u = true -> Js.is_whitespace u = false.
Proof.
  unfold Js.is_digit, Js.is_whitespace. intros H.
  apply andb_true_iff in H as [H1 H2]. apply N.leb_le in H1, H2.
  repeat (apply orb_false_iff; split);
    try (apply N.eqb_neq; lia);
    apply andb_false_iff; left; apply N.leb_gt; lia.
Qed.

(** [parseInt] of a text made of decimal digits only. *)
Lemma parseInt_digits (ds : list N) :
  ds <> [] -> Forall (fun u => Js.is_digit u = true) ds ->
  Js.parseInt ds = Js.to_double (decimal ds).
Proof.
  intros Hne Hds. unfold Js.parseInt.
  destruct ds as [|d ds]; [congruence|].
  pose proof (Forall_inv Hds) as Hd. pose proof (Forall_inv_tail Hds) as Htl.
  assert (Hr : (48 <= d <= 57)%N).
  { unfold Js.is_digit in Hd. apply andb_true_iff in Hd as [H1 H2].
    apply N.leb_le in H1, H2. lia. }
  cbn [Js.trim_start]. rewrite (digit_not_whitespace d Hd).
  destruct (N.eqb_spec d 0x2D) as [E|_]; [lia|].
  destruct (N.eqb_spec d 0x2B) as [E|_]; [lia|].
  assert (Hradix :
    match d :: ds with
    | z :: x :: t =>
        if (z =? 0x30)%N && ((x =? 0x78)%N || (x =? 0x58)%N)
        then (16%Z, t) else (10%Z, d :: ds)
    | _ => (10%Z, d :: ds)
    end = (10%Z, d :: ds)).
  { destruct ds as [|x t]; [reflexivity|].
    pose proof (Forall_inv Htl) as Hx. unfold Js.is_digit in Hx.
    apply andb_true_iff in Hx as [H1 H2]. apply N.leb_le in H1, H2.
    destruct (N.eqb_spec x 0x78) as [E|_]; [lia|].
    destruct (N.eqb_spec x 0x58) as [E|_]; [lia|].
    rewrite andb_false_r. reflexivity. }
  rewrite Hradix.
  rewrite (digits_go_decimal (d :: ds) 0 false Hds) by (left; congruence).
  reflexivity.
Qed.

(** ** Regular expressions: lemmas *)

Lemma consumed_app (l x : list N) : Js.consumed (l ++ x) x = l.
Proof.
  unfold Js.consumed. rewrite length_app.
  replace (List.length l + List.length x - List.length x) with (List.length l) by lia.
  apply take_app_length.
Qed.

Lemma run_plus_sound (p : N -> bool) (s rest : list N) :
  In rest (Js.run_plus p s) ->
  exists ds, ds <> [] /\ Forall (fun u => p u = true) ds /\ s = ds ++ rest.
Proof.
  revert rest. induction s as [|u t IH]; intros rest; simpl; [tauto|].
  destruct (p u) eqn:Hu; [|intros []].
  rewrite in_app_iff. intros [Hin | [<- | []]].
  - destruct (IH rest Hin) as (ds & _ & Hds & ->).
    exists (u :: ds). repeat split; [congruence | constructor; assumption].
  - exists [u]. repeat split; [congruence | constructor; [assumption | constructor]].
Qed.

(** Every alternative the matcher lists is a match of the pattern. *)
Lemma run_sound (r : Js.regex) :
  forall s caps rest, In (caps, rest) (Js.run r s) -> Js.denote r s rest.
Proof.
  induction r as [l | p | p | r IH | r IH | r1 IH1 r2 IH2]; intros s caps rest; simpl.
  - destruct (Js.starts_with l s) eqn:E; [|intros []].
    apply starts_with_spec in E as [x ->].
    intros [[= <- <-] | []]. rewrite drop_app_length. reflexivity.
  - destruct s as [|u t]; [intros []|].
    destruct (p u) eqn:Hu; [|intros []].
    intros [[= <- <-] | []]. eauto.
  - rewrite in_map_iff. intros (rest' & [= <- <-] & Hin).
    apply run_plus_sound. exact Hin.
  - rewrite in_app_iff. intros [Hin | [[= <- <-] | []]]; eauto.
  - rewrite in_map_iff. intros ([c r'] & [= <- <-] & Hin). eauto.
  - rewrite in_flat_map. intros ([c1 mid] & Hin1 & Hin2).
    rewrite in_map_iff in Hin2. destruct Hin2 as ([c2 r'] & [= <- <-] & Hin2).
    eauto.
Qed.

Lemma run_nil_of_no_match (r : Js.regex) (s : list N) :
  (forall rest, ~ Js.denote r s rest) -> Js.run r s = [].
Proof.
  intros H. destruct (Js.run r s) as [|[caps rest] tl] eqn:E; [reflexivity|].
  exfalso. apply (H rest), (run_sound r s caps). rewrite E. left. reflexivity.
Qed.

Lemma run_plus_complete (p : N -> bool) (ds rest : list N) :
  ds <> [] -> Forall (fun u => p u = true) ds -> In rest (Js.run_plus p (ds ++ rest)).
Proof.
  intros Hne Hds. induction Hds as [|d ds Hd Hds IH]; [congruence|].
  simpl. rewrite Hd. apply in_app_iff. destruct ds as [|d' ds'].
  - right. left. reflexivity.
  - left. apply IH. congruence.
Qed.

(** Every match of the pattern is among the alternatives the matcher
    lists. *)
Lemma run_complete (r : Js.regex) :
  forall s rest, Js.denote r s rest -> exists caps, In (caps, rest) (Js.run r s).
Proof.
  induction r as [l | p | p | r IH | r IH | r1 IH1 r2 IH2]; intros s rest; simpl.
  - intros ->. rewrite starts_with_app, drop_app_length. eexists. left. reflexivity.
  - intros (u & Hu & ->). rewrite Hu. eexists. left. reflexivity.
  - intros (ds & Hne & Hds & ->). exists [].
    apply in_map_iff. exists rest. split; [reflexivity|].
    apply run_plus_complete; assumption.
  - intros [H | ->].
    + destruct (IH _ _ H) as [caps Hin]. exists caps. apply in_app_iff. left. exact Hin.
    + eexists. apply in_app_iff. right. left. reflexivity.
  - intros H. destruct (IH _ _ H) as [caps Hin].
    eexists. apply in_map_iff. exists (caps, rest). split; [reflexivity | exact Hin].
  - intros (mid & H1 & H2).
    destruct (IH1 _ _ H1) as [c1 Hin1]. destruct (IH2 _ _ H2) as [c2 Hin2].
    exists (c1 ++ c2). apply in_flat_map. exists (c1, mid). split; [exact Hin1|].
    apply in_map_iff. exists (c2, rest). split; [reflexivity | exact Hin2].
Qed.

(** Where the matcher lists no alternative, the pattern has no match. *)
Lemma run_nil_of_no_match_conv (r : Js.regex) (s rest : list N) :
  Js.denote r s rest -> Js.run r s = [] -> False.
Proof.
  intros H E. destruct (run_complete r s rest H) as [caps Hin].
  rewrite E in Hin. exact Hin.
Qed.

Lemma first_lit (l x : list N) : Js.first_match (Js.Lit l) (l ++ x) = Some ([], x).
Proof.
  unfold Js.first_match. simpl. rewrite starts_with_app, drop_app_length. reflexivity.
Qed.

Lemma first_class (p : N -> bool) (u : N) (t : list N) :
  p u = true -> Js.first_match (Js.Class p) (u :: t) = Some ([], t).
Proof. intros H. unfold Js.first_match. simpl. rewrite H. reflexivity. Qed.

Lemma run_plus_head (p : N -> bool) (ds t : list N) :
  ds <> [] -> Forall (fun u => p u = true) ds -> Js.run_plus p t = [] ->
  head (Js.run_plus p (ds ++ t)) = Some t.
Proof.
  intros Hne Hds Ht. induction Hds as [|d ds Hd Hds IH]; [congruence|].
  simpl. rewrite Hd. destruct ds as [|d' ds'].
  - simpl. rewrite Ht. reflexivity.
  - assert (IH' := IH ltac:(congruence)).
    destruct (Js.run_plus p ((d' :: ds') ++ t)); [discriminate|]. exact IH'.
Qed.

Lemma first_plus (p : N -> bool) (ds t : list N) :
  ds <> [] -> Forall (fun u => p u = true) ds -> Js.run_plus p t = [] ->
  Js.first_match (Js.Plus p) (ds ++ t) = Some ([], t).
Proof.
  intros Hne Hds Ht. unfold Js.first_match. simpl.
  pose proof (run_plus_head p ds t Hne Hds Ht) as H.
  destruct (Js.run_plus p (ds ++ t)); [discriminate|].
  injection H as ->. reflexivity.
Qed.

Lemma first_opt_some (r : Js.regex) (s : list N) x :
  Js.first_match r s = Some x -> Js.first_match (Js.Opt r) s = Some x.
Proof.
  unfold Js.first_match. simpl. destruct (Js.run r s); [discriminate|].
  intros H. exact H.
Qed.

Lemma first_opt_none (r : Js.regex) (s : list N) :
  Js.run r s = [] ->
  Js.first_match (Js.Opt r) s = Some (replicate (Js.groups r) None, s).
Proof. intros H. unfold Js.first_match. simpl. rewrite H. reflexivity. Qed.

Lemma first_opt_lit (l s : list N) :
  exists rest, Js.first_match (Js.Opt (Js.Lit l)) s = Some ([], rest).
Proof.
  unfold Js.first_match. simpl. destruct (Js.starts_with l s); simpl; eauto.
Qed.

Lemma first_group (r : Js.regex) (s : list N) caps rest :
  Js.first_match r s = Some (caps, rest) ->
  Js.first_match (Js.Group r) s = Some (Some (Js.consumed s rest) :: caps, rest).
Proof.
  unfold Js.first_match. simpl. destruct (Js.run r s) as [|[c r'] tl]; [discriminate|].
  intros [= -> ->]. reflexivity.
Qed.

Lemma first_seq (r1 r2 : Js.regex) (s : list N) c1 mid c2 rest :
  Js.first_match r1 s = Some (c1, mid) ->
  Js.first_match r2 mid = Some (c2, rest) ->
  Js.first_match (Js.Seq r1 r2) s = Some (c1 ++ c2, rest).
Proof.
  unfold Js.first_match. simpl.
  destruct (Js.run r1 s) as [|[c1' mid'] tl1]; [discriminate|].
  intros [= -> ->]. simpl.
  destruct (Js.run r2 mid) as [|[c2' rest'] tl2]; [discriminate|].
  intros [= -> ->]. reflexivity.
Qed.

Lemma str_match_here (r : Js.regex) (s : list N) caps rest :
  Js.first_match r s = Some (caps, rest) ->
  Js.str_match r s = Some (Some (Js.consumed s rest) :: caps).
Proof.
  unfold Js.first_match. intros H.
  destruct s; simpl; destruct (Js.run r _) as [|[c r'] tl];
    try discriminate; injection H as -> ->; reflexivity.
Qed.

(** The search goes past the positions where no match starts. *)
Lemma str_match_skip (r : Js.regex) (pre t : list N) :
  Js.no_match_before r (pre ++ t) (List.length pre) ->
  Js.str_match r (pre ++ t) = Js.str_match r t.
Proof.
  induction pre as [|u pre IH]; intros H; [reflexivity|].
  simpl. rewrite (run_nil_of_no_match r (u :: pre ++ t)).
  - apply IH. intros i rest Hi. apply (H (S i) rest). simpl. lia.
  - intros rest. apply (H 0 rest). simpl. lia.
Qed.

(** ** The two patterns of the translator *)

(** At the start of the phrase "long(er) than <N> character" the length
    pattern matches and its second group holds the digits. *)
Lemma lengthRe_first (er : bool) (ds post : list N) :
  ds <> [] -> Forall (fun u => Js.is_digit u = true) ds ->
  exists c1 rest,
    Js.first_match lengthRe (length_phrase er ds ++ post) = Some ([c1; Some ds], rest).
Proof.
  intros Hne Hds. unfold length_phrase, lengthRe. rewrite <- !app_assoc.
  destruct (first_opt_lit (Js.js "s") post) as [rest Hs].
  pose proof (first_seq _ _ _ _ _ _ _
                (first_lit (Js.js " character") post) Hs) as H5.
  pose proof (first_group _ _ _ _
                (first_plus Js.is_digit ds (Js.js " character" ++ post) Hne Hds eq_refl))
    as H4.
  rewrite consumed_app in H4.
  pose proof (first_seq _ _ _ _ _ _ _ H4 H5) as H3.
  pose proof (first_seq _ _ _ _ _ _ _ (first_lit (Js.js " than ") _) H3) as H2.
  destruct er.
  - pose proof (first_opt_some _ _ _
                  (first_group _ _ _ _
                     (first_lit (Js.js "er")
                        (Js.js " than " ++ ds ++ Js.js " character" ++ post)))) as H1.
    pose proof (first_seq _ _ _ _ _ _ _ H1 H2) as H0.
    pose proof (first_seq _ _ _ _ _ _ _ (first_lit (Js.js "long") _) H0) as H.
    eexists _, rest. exact H.
  - pose proof (first_opt_none (Js.Group (Js.Lit (Js.js "er")))
                  (Js.js " than " ++ ds ++ Js.js " character" ++ post) eq_refl) as H1.
    pose proof (first_seq _ _ _ _ _ _ _ H1 H2) as H0.
    pose proof (first_seq _ _ _ _ _ _ _ (first_lit (Js.js "long") _) H0) as H.
    eexists _, rest. exact H.
Qed.

(** At the start of the phrase "contains (the) letter <c>" the letter
    pattern matches and its group holds the one character. *)
Lemma containsRe_first (the : bool) (c : N) (post : list N) :
  Js.is_word c = true ->
  exists rest,
    Js.first_match containsRe (contains_phrase the c ++ post) = Some ([Some [c]], rest).
Proof.
  intros Hc. unfold contains_phrase, containsRe. rewrite <- !app_assoc.
  pose proof (first_group _ _ _ _ (first_class Js.is_word c post Hc)) as H3.
  change (Js.consumed (c :: post) post) with (Js.consumed ([c] ++ post) post) in H3.
  rewrite consumed_app in H3.
  pose proof (first_seq _ _ _ _ _ _ _ (first_lit (Js.js " letter ") _) H3) as H2.
  destruct the.
  - pose proof (first_opt_some _ _ _
                  (first_lit (Js.js " the") (Js.js " letter " ++ [c] ++ post))) as H1.
    pose proof (first_seq _ _ _ _ _ _ _ H1 H2) as H0.
    pose proof (first_seq _ _ _ _ _ _ _ (first_lit (Js.js "contains") _) H0) as H.
    exists post. exact H.
  - pose proof (first_opt_none (Js.Lit (Js.js " the"))
                  (Js.js " letter " ++ [c] ++ post) eq_refl) as H1.
    pose proof (first_seq _ _ _ _ _ _ _ H1 H2) as H0.
    pose proof (first_seq _ _ _ _ _ _ _ (first_lit (Js.js "contains") _) H0) as H.
    exists post. exact H.
Qed.

(** The leftmost occurrence of the length phrase decides [lengthMatch[2]]. *)
Lemma lengthMatch_capture (s pre post : list N) (er : bool) (ds : list N) :
  s = pre ++ length_phrase er ds ++ post ->
  ds <> [] -> Forall (fun u => Js.is_digit u = true) ds ->
  Js.no_match_before lengthRe s (List.length pre) ->
  exists m, Js.str_match lengthRe s = Some m /\ Js.capture m 2 = Some ds.
Proof.
  intros -> Hne Hds Hleft.
  rewrite (str_match_skip lengthRe pre _ Hleft).
  destruct (lengthRe_first er ds post Hne Hds) as (c1 & rest & H).
  rewrite (str_match_here _ _ _ _ H). eexists. split; reflexivity.
Qed.

(** The leftmost occurrence of the letter phrase decides [containsMatch[1]]. *)
Lemma containsMatch_capture (s pre post : list N) (the : bool) (c : N) :
  s = pre ++ contains_phrase the c ++ post ->
  Js.is_word c = true ->
  Js.no_match_before containsRe s (List.length pre) ->
  exists m, Js.str_match containsRe s = Some m /\ Js.capture m 1 = Some [c].
Proof.
  intros -> Hc Hleft.
  rewrite (str_match_skip containsRe pre _ Hleft).
  destruct (containsRe_first the c post Hc) as (rest & H).
  rewrite (str_match_here _ _ _ _ H). eexists. split; reflexivity.
Qed.

(** [parseInt(lengthMatch[2]) + 1] while the result is an exact double. *)
Lemma parse_capture_plus_one (ds : list N) :
  ds <> [] -> Forall (fun u => Js.is_digit u = true) ds ->
  (decimal ds < 2 ^ 53)%Z ->
  Js.add (parseInt_capture (Some ds)) (Js.Num 1) = Js.Num (decimal ds + 1).
Proof.
  intros Hne Hds Hlt. simpl parseInt_capture.
  rewrite (parseInt_digits ds Hne Hds).
  pose proof (decimal_nonneg ds Hds).
  rewrite to_double_exact by lia. simpl. apply to_double_exact. lia.
Qed.

(** ** The host used for evaluation *)

Lemma AsciiHost_lowers_ascii : lowers_ascii AsciiHost.
Proof. intros s _. reflexivity. Qed.

(** The built-in functions of the model on small inputs. *)

Example trim_strips_both_ends : Js.trim (Js.js "  a b  ") = Js.js "a b".
Proof. reflexivity. Qed.

Example split_ws_pieces :
  Js.split_ws (Js.js " a  b ") = [[]; Js.js "a"; Js.js "b"; []].
Proof. reflexivity. Qed.

Example parseInt_stops_at_first_non_digit :
  Js.parseInt (Js.js "12px") = Js.Num 12
  /\ Js.parseInt (Js.js " -0x1F") = Js.Num (-31)
  /\ Js.parseInt (Js.js "px") = Js.NaN.
Proof. repeat split; reflexivity. Qed.

Example parseInt_rounds_to_double :
  Js.parseInt (Js.js "9007199254740993") = Js.Num 9007199254740992.
Proof. vm_compute. reflexivity. Qed.

Example match_takes_leftmost :
  Js.str_match lengthRe (Js.js "long than 5 characters, longer than 7 characters")
  = Some [Some (Js.js "long than 5 characters"); None; Some (Js.js "5")].
Proof. vm_compute. reflexivity. Qed.

(** The end-to-end example of the specification: Racecar. *)
Example racecar_properties :
  let p := Part000.make_properties (B := AsciiHost) (Js.js "Racecar") [] in
  Part000.is_palindrome p = true /\ Part000.length p = 7
  /\ Part000.word_count p = 1 /\ Part000.unique_characters p = 5.
Proof. vm_compute. repeat split; reflexivity. Qed.

(** ** GET /strings without parameters *)

(** The matcher of the unnamed file accepts every record under the empty
    FilterSet. *)
Lemma part000_matches_no_filters `{B : Builtins} (obj : Part000.StoredObj) :
  Part000.matches no_filters obj = true /\ Part000.nl_matches no_filters obj = true.
Proof. split; reflexivity. Qed.

Lemma filter_all_true {A} (f : A -> bool) (l : list A) :
  (forall x, f x = true) -> List.filter f l = l.
Proof.
  intros H. induction l as [|x l IH]; simpl; [reflexivity|].
  rewrite H, IH. reflexivity.
Qed.

(** In the unnamed file the listing without parameters returns the whole
    store. *)
Lemma part000_unfiltered_listing `{B : Builtins}
    (stringStore : list (list N * Part000.StoredObj)) :
  Part000.get_strings stringStore no_parameters_000
  = Responded 200 (Part000.ListBody (JsMap.values stringStore)
                     (List.length (JsMap.values stringStore)) no_filters).
Proof.
  unfold Part000.get_strings. simpl.
  rewrite filter_all_true; [reflexivity|].
  intros obj. reflexivity.
Qed.

Lemma index_matches_no_parameters `{B : Builtins} (obj : IndexJs.StoredObj) :
  IndexJs.matches (IndexJs.make_filters no_parameters_index) obj
  = negb (IndexJs.is_palidrome (IndexJs.properties obj)).
Proof.
  unfold IndexJs.matches. simpl.
  destruct (IndexJs.is_palidrome (IndexJs.properties obj)); reflexivity.
Qed.

Lemma index_isPalidrome_ascii `{B : Builtins} (s : list N) :
  lowers_ascii B -> Forall (fun u => (u < 128)%N) s ->
  IndexJs.isPalidrome s
  = Js.str_eqb (map lower_unit s) (rev (map lower_unit s)).
Proof.
  intros HB Hs. unfold IndexJs.isPalidrome.
  rewrite (HB s Hs), join_rev_split_units. reflexivity.
Qed.

Ltac ascii_units := repeat constructor.

(** C1 (src/index.js). With the one-letter string a stored, GET /strings/
    without any query parameter answers 200 with an empty list: when
    [is_palidrome] is absent, line 89 makes the filter [false], and line 99
    then drops every palindromic record. The unnamed file returns the whole
    store ([part000_unfiltered_listing]). *)
Theorem C1_index_js_unfiltered_listing_drops_palindromes
    `{B : Builtins} (now : list N) :
  lowers_ascii B ->
  exists obj stringStore f,
    IndexJs.post_strings now [] (Some (JString (Js.js "a")))
      = (Responded 201 (IndexJs.RecordBody (Some obj)), stringStore)
    /\ JsMap.values stringStore = [obj]
    /\ IndexJs.get_strings stringStore no_parameters_index
       = Responded 200 (IndexJs.ListBody [] 0 f).
Proof.
  intros HB. eexists _, _, _. split; [reflexivity|]. split; [reflexivity|].
  unfold IndexJs.get_strings.
  change (IndexJs.bad_bool (IndexJs.q_is_palidrome no_parameters_index)) with false.
  change (IndexJs.bad_int (IndexJs.q_min_length no_parameters_index)) with false.
  change (IndexJs.bad_int (IndexJs.q_max_length no_parameters_index)) with false.
  change (IndexJs.bad_int (IndexJs.q_word_count no_parameters_index)) with false.
  change (IndexJs.bad_char (IndexJs.q_contains_character no_parameters_index)) with false.
  cbv iota. cbn [JsMap.set JsMap.values map snd List.filter].
  rewrite index_matches_no_parameters.
  cbn [IndexJs.properties IndexJs.make_properties IndexJs.is_palidrome].
  change (Js.trim (Js.js "a")) with (Js.js "a").
  rewrite (index_isPalidrome_ascii (Js.js "a") HB) by ascii_units.
  reflexivity.
Qed.

Lemma C1_index_js_witness :
  exists obj stringStore f,
    IndexJs.post_strings (B := AsciiHost) [] [] (Some (JString (Js.js "a")))
      = (Responded 201 (IndexJs.RecordBody (Some obj)), stringStore)
    /\ JsMap.values stringStore = [obj]
    /\ IndexJs.get_strings (B := AsciiHost) stringStore no_parameters_index
       = Responded 200 (IndexJs.ListBody [] 0 f).
Proof.
  exact (C1_index_js_unfiltered_listing_drops_palindromes (B := AsciiHost) []
           AsciiHost_lowers_ascii).
Defined.

(** ** GET /strings/:value on an absent fingerprint *)

(** The unnamed file answers 404 when the digest of the trimmed value is
    not a key of the store. *)
Lemma part000_get_absent_404 `{B : Builtins}
    (stringStore : list (list N * Part000.StoredObj)) (value : list N) :
  Js.trim value <> [] ->
  JsMap.get (sha256_hex (Js.trim value)) stringStore = None ->
  Part000.get_string stringStore value
  = Responded 404 (Part000.ErrorBody "String not found").
Proof.
  intros Hne Habs. unfold Part000.get_string.
  destruct value as [|u value]; [contradiction Hne; reflexivity|].
  simpl Js.truthy. cbv iota. simpl negb. cbv iota.
  destruct (Js.trim (u :: value)) as [|v t] eqn:E; [congruence|].
  simpl. rewrite Habs. reflexivity.
Qed.

(** C2 (src/index.js). On the empty store GET /strings/abc answers 200
    with the [undefined] that [stringStore.get] returned: lines 73-74 send
    the lookup result without testing it. The unnamed file tests it and
    answers 404 ([part000_get_absent_404]), and so does the DELETE handler
    of src/index.js itself. *)
Theorem C2_index_js_get_absent_answers_200 `{B : Builtins} :
  JsMap.get (sha256_hex (Js.trim (Js.js "abc"))) (@nil (list N * IndexJs.StoredObj)) = None
  /\ IndexJs.get_string [] (Js.js "abc") = Responded 200 (IndexJs.RecordBody None).
Proof. split; reflexivity. Qed.

(** ** The word_count predicate *)

(** In the unnamed file a record passes the matcher under a FilterSet with
    [word_count = n] only if its own word count is [n]. *)
Lemma part000_word_count_exact `{B : Builtins}
    (filters : Part000.Filters) (obj : Part000.StoredObj) (n : Js.Number) :
  Part000.f_word_count filters = Some n ->
  Part000.matches filters obj = true ->
  n = Js.of_nat (Part000.word_count (Part000.properties obj)).
Proof.
  intros Hn. unfold Part000.matches. rewrite Hn.
  destruct (match Part000.f_is_palindrome filters with Some _ => _ | None => _ end);
    [discriminate|].
  destruct (match Part000.f_min_length filters with Some _ => _ | None => _ end);
    [discriminate|].
  destruct (match Part000.f_max_length filters with Some _ => _ | None => _ end);
    [discriminate|].
  destruct (Js.strict_ne _ n) eqn:E; [discriminate|]. intros _.
  unfold Js.strict_ne, Js.strict_eq, Js.of_nat in *.
  destruct n as [|z|b]; try discriminate.
  apply negb_false_iff, Z.eqb_eq in E. congruence.
Qed.

(** C3 (src/index.js). With the two-word string hello world stored,
    GET /strings/?word_count=1 answers 200 with that record in the list:
    the parameter is validated and parsed (lines 85 and 92) but the callback
    of lines 96-105 has no test on it. The unnamed file has the test
    (line 121, [part000_word_count_exact]). *)
Theorem C3_index_js_word_count_not_applied `{B : Builtins} (now : list N) :
  lowers_ascii B ->
  exists obj stringStore f,
    IndexJs.post_strings now [] (Some (JString (Js.js "hello world")))
      = (Responded 201 (IndexJs.RecordBody (Some obj)), stringStore)
    /\ IndexJs.word_count (IndexJs.properties obj) = 2
    /\ IndexJs.f_word_count f = Some (Js.Num 1)
    /\ IndexJs.get_strings stringStore (only_word_count_index (Js.js "1"))
       = Responded 200 (IndexJs.ListBody [obj] 1 f).
Proof.
  intros HB.
  eexists _, _, (IndexJs.make_filters (only_word_count_index (Js.js "1"))).
  split; [reflexivity|]. split; [reflexivity|]. split; [reflexivity|].
  unfold IndexJs.get_strings.
  change (IndexJs.bad_bool _) with false.
  change (IndexJs.bad_int (IndexJs.q_min_length _)) with false.
  change (IndexJs.bad_int (IndexJs.q_max_length _)) with false.
  change (IndexJs.bad_int (IndexJs.q_word_count _)) with false.
  change (IndexJs.bad_char _) with false.
  cbv iota. cbn [JsMap.set JsMap.values map snd List.filter].
  match goal with |- context [IndexJs.matches ?f ?o] =>
    assert (Hm : IndexJs.matches f o = true) end.
  { unfold IndexJs.matches.
    cbn [IndexJs.properties IndexJs.make_properties IndexJs.is_palidrome
         IndexJs.make_filters IndexJs.f_is_palidrome only_word_count_index
         IndexJs.q_is_palidrome IndexJs.f_min_length IndexJs.f_max_length
         IndexJs.f_contains_character IndexJs.q_min_length IndexJs.q_max_length
         IndexJs.q_contains_character IndexJs.int_filter].
    change (Js.trim (Js.js "hello world")) with (Js.js "hello world").
    rewrite (index_isPalidrome_ascii (Js.js "hello world") HB) by ascii_units.
    reflexivity. }
  rewrite Hm. reflexivity.
Qed.

Lemma C3_index_js_witness :
  exists obj stringStore f,
    IndexJs.post_strings (B := AsciiHost) [] [] (Some (JString (Js.js "hello world")))
      = (Responded 201 (IndexJs.RecordBody (Some obj)), stringStore)
    /\ IndexJs.word_count (IndexJs.properties obj) = 2
    /\ IndexJs.f_word_count f = Some (Js.Num 1)
    /\ IndexJs.get_strings (B := AsciiHost) stringStore (only_word_count_index (Js.js "1"))
       = Responded 200 (IndexJs.ListBody [obj] 1 f).
Proof.
  exact (C3_index_js_word_count_not_applied (B := AsciiHost) [] AsciiHost_lowers_ascii).
Defined.

(** ** The palindrome rule of the translator *)

(** In the unnamed file a query whose lowercase form contains palindrome or
    palindromic is translated to a FilterSet with [is_palindrome = true]. *)
Lemma part000_palindrome_rule `{B : Builtins} (query : list N) :
  Js.includes (toLowerCase query) (Js.js "palindrome") = true
  \/ Js.includes (toLowerCase query) (Js.js "palindromic") = true ->
  exists f, Part000.parseNaturalLanguage query = Some f
            /\ Part000.f_is_palindrome f = Some true.
Proof.
  intros H. unfold Part000.parseNaturalLanguage.
  assert (E : Js.includes (toLowerCase query) (Js.js "palindrome")
              || Js.includes (toLowerCase query) (Js.js "palindromic") = true)
    by (apply orb_true_iff; exact H).
  rewrite E. cbn [b2n]. eexists. split; reflexivity.
Qed.

(** C4 (src/index.js). The query palindrome contains the substring
    palindrome, and [parseNaturalLanguage] returns [null]: line 119 looks
    for palindromic and for the misspelt palidrome, never for palindrome.
    The unnamed file looks for both words ([part000_palindrome_rule]). *)
Theorem C4_index_js_palindrome_not_recognised `{B : Builtins} :
  lowers_ascii B ->
  Js.includes (toLowerCase (Js.js "palindrome")) (Js.js "palindrome") = true
  /\ IndexJs.parseNaturalLanguage (Js.js "palindrome") = None.
Proof.
  intros HB. unfold IndexJs.parseNaturalLanguage.
  rewrite (HB (Js.js "palindrome")) by ascii_units.
  split; vm_compute; reflexivity.
Qed.

Lemma C4_index_js_witness :
  Js.includes (toLowerCase (Builtins := AsciiHost) (Js.js "palindrome"))
     (Js.js "palindrome") = true
  /\ IndexJs.parseNaturalLanguage (B := AsciiHost) (Js.js "palindrome") = None.
Proof.
  exact (C4_index_js_palindrome_not_recognised (B := AsciiHost) AsciiHost_lowers_ascii).
Defined.

(** ** The natural-language endpoint *)

(** The handler of the unnamed file always sends a response. *)
Lemma part000_nl_handler_responds `{B : Builtins}
    (stringStore : list (list N * Part000.StoredObj)) (query : option (list N)) :
  exists status body,
    Part000.get_filter_by_natural_language stringStore query = Responded status body.
Proof.
  unfold Part000.get_filter_by_natural_language.
  destruct query as [q|]; [|eauto].
  destruct (negb (Js.truthy q)); [eauto|].
  destruct (Part000.parseNaturalLanguage q); eauto.
Qed.

(** Called with a non-empty query, the natural-language handler of
    src/index.js throws a ReferenceError: line 140 calls [parseNatural], and
    the function the file declares is [parseNaturalLanguage]. *)
Lemma index_nl_handler_throws_when_called `{B : Builtins}
    (stringStore : list (list N * IndexJs.StoredObj)) (u : N) (query : list N) :
  IndexJs.get_filter_by_natural_language stringStore (Some (u :: query))
  = Threw (ReferenceError "parseNatural").
Proof. reflexivity. Qed.


(** ** The length rule of the translator *)

Lemma keys_with_length_match (a b d : bool) (m : list (option (list N))) :
  Nat.eqb (b2n a + b2n b + b2n (bool_decide (is_Some (Some m))) + b2n d) 0 = false.
Proof.
  rewrite (bool_decide_eq_true_2 (is_Some (Some m))) by eauto.
  apply Nat.eqb_neq. simpl. lia.
Qed.

Lemma keys_with_contains_match (a b d : bool) (m : list (option (list N))) :
  Nat.eqb (b2n a + b2n b + b2n d + b2n (bool_decide (is_Some (Some m)))) 0 = false.
Proof.
  rewrite (bool_decide_eq_true_2 (is_Some (Some m))) by eauto.
  apply Nat.eqb_neq. simpl. lia.
Qed.

(** C5, as stated, fails in both files: for N = 2^53 the sum
    [parseInt("9007199254740992") + 1] is computed in double precision and
    is 9007199254740992 again, not N + 1. *)
Lemma C5_counterexample :
  exists (query pre ds post : list N) (er : bool) (f : Part000.Filters),
    toLowerCase (Builtins := AsciiHost) query = pre ++ length_phrase er ds ++ post
    /\ ds <> []
    /\ Forall (fun u => Js.is_digit u = true) ds
    /\ Js.no_match_before lengthRe (toLowerCase (Builtins := AsciiHost) query)
         (List.length pre)
    /\ decimal ds = 9007199254740992%Z
    /\ Part000.parseNaturalLanguage (B := AsciiHost) query = Some f
    /\ Part000.f_min_length f = Some (Js.Num 9007199254740992)
    /\ Part000.f_min_length f <> Some (Js.Num (decimal ds + 1)).
Proof.
  exists (Js.js "longer than 9007199254740992 characters"), [],
         (Js.js "9007199254740992"), (Js.js "s"), true.
  eexists. split; [reflexivity|]. split; [discriminate|].
  split; [repeat constructor|].
  split; [intros i rest Hi; simpl in Hi; lia|].
  split; [reflexivity|].
  split; [vm_compute; reflexivity|].
  split; [reflexivity|].
  vm_compute. discriminate.
Qed.

(** C5, amended. When the lowercase query has the phrase
    "long(er) than <N> character" at the leftmost place where the pattern
    matches, and N is below 2^53 (so that N + 1 is an exact double),
    [parseNaturalLanguage] of either file returns a FilterSet whose
    [min_length] is N + 1; and the query
    palindromic strings longer than 10 characters is translated to exactly
    the palindrome flag set to true together with [min_length = 11]. *)
Theorem C5_longer_than_sets_min_length `{B : Builtins}
    (query pre post ds : list N) (er : bool) :
  lowers_ascii B ->
  toLowerCase query = pre ++ length_phrase er ds ++ post ->
  ds <> [] ->
  Forall (fun u => Js.is_digit u = true) ds ->
  Js.no_match_before lengthRe (toLowerCase query) (List.length pre) ->
  (decimal ds < 2 ^ 53)%Z ->
  (exists f, Part000.parseNaturalLanguage query = Some f
             /\ Part000.f_min_length f = Some (Js.Num (decimal ds + 1)))
  /\ (exists f, IndexJs.parseNaturalLanguage query = Some f
                /\ IndexJs.nl_min_length f = Some (Js.Num (decimal ds + 1)))
  /\ Part000.parseNaturalLanguage
       (Js.js "palindromic strings longer than 10 characters")
     = Some {| Part000.f_is_palindrome := Some true;
               Part000.f_min_length := Some (Js.Num 11);
               Part000.f_max_length := None;
               Part000.f_word_count := None;
               Part000.f_contains_character := None |}
  /\ IndexJs.parseNaturalLanguage
       (Js.js "palindromic strings longer than 10 characters")
     = Some {| IndexJs.nl_is_palidrome := Some true;
               IndexJs.nl_word_count := None;
               IndexJs.nl_min_length := Some (Js.Num 11);
               IndexJs.nl_contains_character := None |}.
Proof.
  intros HB Hq Hne Hds Hleft Hlt.
  destruct (lengthMatch_capture _ pre post er ds Hq Hne Hds Hleft) as (m & Hm & Hcap).
  pose proof (parse_capture_plus_one ds Hne Hds Hlt) as Hadd.
  repeat split.
  - unfold Part000.parseNaturalLanguage. rewrite Hm, keys_with_length_match.
    eexists. split; [reflexivity|]. simpl. rewrite Hcap, Hadd. reflexivity.
  - unfold IndexJs.parseNaturalLanguage. rewrite Hm, keys_with_length_match.
    eexists. split; [reflexivity|]. simpl. rewrite Hcap, Hadd. reflexivity.
  - unfold Part000.parseNaturalLanguage.
    rewrite (HB (Js.js "palindromic strings longer than 10 characters"))
      by ascii_units.
    vm_compute. reflexivity.
  - unfold IndexJs.parseNaturalLanguage.
    rewrite (HB (Js.js "palindromic strings longer than 10 characters"))
      by ascii_units.
    vm_compute. reflexivity.
Qed.

Lemma C5_witness :
  let query := Js.js "palindromic strings longer than 10 characters" in
  (exists f, Part000.parseNaturalLanguage (B := AsciiHost) query = Some f
             /\ Part000.f_min_length f = Some (Js.Num (decimal (Js.js "10") + 1)))
  /\ (exists f, IndexJs.parseNaturalLanguage (B := AsciiHost) query = Some f
                /\ IndexJs.nl_min_length f = Some (Js.Num (decimal (Js.js "10") + 1)))
  /\ Part000.parseNaturalLanguage (B := AsciiHost) query
     = Some {| Part000.f_is_palindrome := Some true;
               Part000.f_min_length := Some (Js.Num 11);
               Part000.f_max_length := None;
               Part000.f_word_count := None;
               Part000.f_contains_character := None |}
  /\ IndexJs.parseNaturalLanguage (B := AsciiHost) query
     = Some {| IndexJs.nl_is_palidrome := Some true;
               IndexJs.nl_word_count := None;
               IndexJs.nl_min_length := Some (Js.Num 11);
               IndexJs.nl_contains_character := None |}.
Proof.
  refine (C5_longer_than_sets_min_length (B := AsciiHost)
            (Js.js "palindromic strings longer than 10 characters")
            (Js.js "palindromic strings ") (Js.js "s") (Js.js "10") true
            AsciiHost_lowers_ascii eq_refl _ _ _ _).
  - discriminate.
  - repeat constructor.
  - intros i rest Hi Hd. simpl in Hi.
    apply (run_nil_of_no_match_conv lengthRe _ rest Hd).
    do 20 (destruct i as [|i]; [vm_compute; reflexivity|]). lia.
  - vm_compute. reflexivity.
Defined.

(** ** The letter rule of the translator *)

(** C6, as stated, fails in both files: the query
    strings that contain the letter z has contain, not contains, so the
    pattern of line 146 finds nothing, no other rule fires, and the result
    is [null]. *)
Lemma C6_counterexample :
  lowers_ascii AsciiHost
  /\ Part000.parseNaturalLanguage (B := AsciiHost)
       (Js.js "strings that contain the letter z") = None
  /\ IndexJs.parseNaturalLanguage (B := AsciiHost)
       (Js.js "strings that contain the letter z") = None
  /\ ~ (exists f, Part000.parseNaturalLanguage (B := AsciiHost)
                    (Js.js "strings that contain the letter z") = Some f
                  /\ Part000.f_contains_character f = Some (Js.js "z")).
Proof.
  split; [exact AsciiHost_lowers_ascii|].
  split; [vm_compute; reflexivity|].
  split; [vm_compute; reflexivity|].
  intros (f & Hf & _). vm_compute in Hf. discriminate.
Qed.

(** C6, amended (unnamed file). The query
    strings that contain the letter z is translated to [null]; the query
    strings that contains the letter z is translated to the FilterSet whose
    only predicate is [contains_character = z]; and when the lowercase query
    has the phrase "contains (the) letter <c>", with c a word character, at
    the leftmost place where the pattern matches, the FilterSet returned has
    [contains_character] equal to the one-character string c. *)
Theorem C6_contains_letter_sets_character `{B : Builtins}
    (query pre post : list N) (the : bool) (c : N) :
  lowers_ascii B ->
  toLowerCase query = pre ++ contains_phrase the c ++ post ->
  Js.is_word c = true ->
  Js.no_match_before containsRe (toLowerCase query) (List.length pre) ->
  Part000.parseNaturalLanguage (Js.js "strings that contain the letter z") = None
  /\ Part000.parseNaturalLanguage (Js.js "strings that contains the letter z")
     = Some {| Part000.f_is_palindrome := None;
               Part000.f_min_length := None;
               Part000.f_max_length := None;
               Part000.f_word_count := None;
               Part000.f_contains_character := Some (Js.js "z") |}
  /\ exists f, Part000.parseNaturalLanguage query = Some f
               /\ Part000.f_contains_character f = Some [c].
Proof.
  intros HB Hq Hc Hleft.
  destruct (containsMatch_capture _ pre post the c Hq Hc Hleft) as (m & Hm & Hcap).
  repeat split.
  - unfold Part000.parseNaturalLanguage.
    rewrite (HB (Js.js "strings that contain the letter z")) by ascii_units.
    vm_compute. reflexivity.
  - unfold Part000.parseNaturalLanguage.
    rewrite (HB (Js.js "strings that contains the letter z")) by ascii_units.
    vm_compute. reflexivity.
  - unfold Part000.parseNaturalLanguage. rewrite Hm, keys_with_contains_match.
    eexists. split; [reflexivity|]. simpl. exact Hcap.
Qed.

Lemma C6_witness :
  Part000.parseNaturalLanguage (B := AsciiHost)
    (Js.js "strings that contain the letter z") = None
  /\ Part000.parseNaturalLanguage (B := AsciiHost)
       (Js.js "strings that contains the letter z")
     = Some {| Part000.f_is_palindrome := None;
               Part000.f_min_length := None;
               Part000.f_max_length := None;
               Part000.f_word_count := None;
               Part000.f_contains_character := Some (Js.js "z") |}
  /\ exists f, Part000.parseNaturalLanguage (B := AsciiHost)
                 (Js.js "Strings that CONTAINS letter Q!") = Some f
               /\ Part000.f_contains_character f = Some (Js.js "q").
Proof.
  refine (C6_contains_letter_sets_character (B := AsciiHost)
            (Js.js "Strings that CONTAINS letter Q!")
            (Js.js "strings that ") (Js.js "!") false 113%N
            AsciiHost_lowers_ascii eq_refl eq_refl _).
  intros i rest Hi Hd. simpl in Hi.
  apply (run_nil_of_no_match_conv containsRe _ rest Hd).
  do 13 (destruct i as [|i]; [vm_compute; reflexivity|]). lia.
Defined.

(** ** Inserting the same value twice *)

(** C7. For values with the same non-empty trimmed text whose digest is
    not yet a key of the store, the first POST /strings answers 201 with the
    new record and the second answers 409; the second leaves the store as
    the first left it, and the digest still maps to the record of the first
    insert. This holds in both files. *)
Theorem C7_second_insert_conflicts `{B : Builtins}
    (now1 now2 v1 v2 : list N)
    (store000 : list (list N * Part000.StoredObj))
    (storeIndex : list (list N * IndexJs.StoredObj)) :
  Js.trim v1 = Js.trim v2 ->
  Js.trim v1 <> [] ->
  JsMap.has (sha256_hex (Js.trim v1)) store000 = false ->
  JsMap.has (sha256_hex (Js.trim v1)) storeIndex = false ->
  (exists obj st,
     Part000.post_strings now1 store000 (Some (JString v1))
       = (Responded 201 (Part000.RecordBody obj), st)
     /\ Part000.post_strings now2 st (Some (JString v2))
        = (Responded 409 (Part000.ErrorBody "String already exists"), st)
     /\ JsMap.get (sha256_hex (Js.trim v1)) st = Some obj
     /\ Part000.value obj = Js.trim v1)
  /\ (exists obj st,
        IndexJs.post_strings now1 storeIndex (Some (JString v1))
          = (Responded 201 (IndexJs.RecordBody (Some obj)), st)
        /\ IndexJs.post_strings now2 st (Some (JString v2))
           = (Responded 409 (IndexJs.ErrorBody "String already exists"), st)
        /\ JsMap.get (sha256_hex (Js.trim v1)) st = Some obj
        /\ IndexJs.value obj = Js.trim v1).
Proof.
  intros Heq Hne H000 HIdx.
  assert (Ht : negb (Js.truthy (Js.trim v1)) = false)
    by (destruct (Js.trim v1); [congruence | reflexivity]).
  split.
  - unfold Part000.post_strings. rewrite <- Heq, Ht, H000.
    eexists _, _. split; [reflexivity|].
    rewrite map_has_set_eq, map_get_set_eq. repeat split; reflexivity.
  - unfold IndexJs.post_strings. rewrite <- Heq, Ht, HIdx.
    eexists _, _. split; [reflexivity|].
    rewrite map_has_set_eq, map_get_set_eq. repeat split; reflexivity.
Qed.

Lemma C7_witness :
  (exists obj st,
     Part000.post_strings (B := AsciiHost) (Js.js "t1") [] (Some (JString (Js.js " Racecar ")))
       = (Responded 201 (Part000.RecordBody obj), st)
     /\ Part000.post_strings (B := AsciiHost) (Js.js "t2") st (Some (JString (Js.js "Racecar")))
        = (Responded 409 (Part000.ErrorBody "String already exists"), st)
     /\ JsMap.get (sha256_hex (Builtins := AsciiHost) (Js.trim (Js.js " Racecar "))) st
        = Some obj
     /\ Part000.value obj = Js.trim (Js.js " Racecar "))
  /\ (exists obj st,
        IndexJs.post_strings (B := AsciiHost) (Js.js "t1") [] (Some (JString (Js.js " Racecar ")))
          = (Responded 201 (IndexJs.RecordBody (Some obj)), st)
        /\ IndexJs.post_strings (B := AsciiHost) (Js.js "t2") st (Some (JString (Js.js "Racecar")))
           = (Responded 409 (IndexJs.ErrorBody "String already exists"), st)
        /\ JsMap.get (sha256_hex (Builtins := AsciiHost) (Js.trim (Js.js " Racecar "))) st
           = Some obj
        /\ IndexJs.value obj = Js.trim (Js.js " Racecar ")).
Proof.
  refine (C7_second_insert_conflicts (B := AsciiHost)
            (Js.js "t1") (Js.js "t2") (Js.js " Racecar ") (Js.js "Racecar") [] []
            eq_refl _ eq_refl eq_refl).
  vm_compute. discriminate.
Defined.

(** ** The palindrome flag *)

Lemma code_points_no_pair (s : list N) :
  Js.has_surrogate_pair s = false -> Js.code_points s = Js.split_units s.
Proof.
  induction s as [|u t IH]; [reflexivity|].
  destruct t as [|v t']; [reflexivity|].
  intros H. change (Js.has_surrogate_pair (u :: v :: t'))
    with ((Js.is_high_surrogate u && Js.is_low_surrogate v)
          || Js.has_surrogate_pair (v :: t')) in H.
  apply orb_false_iff in H as [Hp Ht].
  change (Js.code_points (u :: v :: t'))
    with (if Js.is_high_surrogate u && Js.is_low_surrogate v
          then [u; v] :: Js.code_points t' else [u] :: Js.code_points (v :: t')).
  rewrite Hp, (IH Ht). reflexivity.
Qed.

(** Without a surrogate pair, reversing by code point is reversing by code
    unit. *)
Lemma reverse_by_code_point_no_pair (s : list N) :
  Js.has_surrogate_pair s = false -> reverse_by_code_point s = rev s.
Proof.
  intros H. unfold reverse_by_code_point. rewrite (code_points_no_pair s H).
  apply join_rev_split_units.
Qed.

(** C8, as stated, fails in both files: the string made of the one
    character U+1F600 (code units U+D83D U+DE00; trimmed, not empty, its own
    lowercase form) is a single code point, so it equals its
    character-reversed form, and the flag is false, because line 36 reverses
    the two code units. *)
Lemma C8_counterexample :
  exists str hash : list N,
    Js.trim str = str /\ str <> []
    /\ toLowerCase (Builtins := AsciiHost) str = str
    /\ Js.code_points str = [str]
    /\ reads_same_character_reversed (B := AsciiHost) str
    /\ Part000.is_palindrome (Part000.make_properties (B := AsciiHost) str hash) = false
    /\ IndexJs.is_palidrome (IndexJs.make_properties (B := AsciiHost) str hash) = false.
Proof.
  exists [0xD83D; 0xDE00]%N, [].
  repeat split; try reflexivity. discriminate.
Qed.

(** C8, amended. In both files the palindrome flag is true exactly when
    the lowercase form of the string equals its own reverse taken code unit
    by code unit; when the lowercase form has no surrogate pair (no
    character outside the Basic Multilingual Plane) that is the same as
    being equal to its character-reversed form. *)
Theorem C8_palindrome_flag_reverses_code_units `{B : Builtins} (str hash : list N) :
  ((Part000.is_palindrome (Part000.make_properties str hash) = true
    <-> reads_same_reversed str)
   /\ (IndexJs.is_palidrome (IndexJs.make_properties str hash) = true
       <-> reads_same_reversed str))
  /\ (Js.has_surrogate_pair (toLowerCase str) = false ->
      (Part000.is_palindrome (Part000.make_properties str hash) = true
       <-> reads_same_character_reversed str)
      /\ (IndexJs.is_palidrome (IndexJs.make_properties str hash) = true
          <-> reads_same_character_reversed str)).
Proof.
  assert (Hunits :
    (Part000.is_palindrome (Part000.make_properties str hash) = true
     <-> reads_same_reversed str)
    /\ (IndexJs.is_palidrome (IndexJs.make_properties str hash) = true
        <-> reads_same_reversed str)).
  { unfold reads_same_reversed. simpl.
    unfold Part000.isPalindrome, IndexJs.isPalidrome, Js.str_eqb.
    rewrite join_rev_split_units.
    split; apply bool_decide_eq_true. }
  split; [exact Hunits|].
  intros Hpair. destruct Hunits as [H0 H1].
  unfold reads_same_character_reversed.
  rewrite (reverse_by_code_point_no_pair _ Hpair).
  split; [exact H0 | exact H1].
Qed.

(** The amended statement at Racecar: no surrogate pair, and the flag is
    true as both readings of the reversal say. *)
Example palindrome_flag_racecar :
  Js.has_surrogate_pair (toLowerCase (Builtins := AsciiHost) (Js.js "Racecar")) = false
  /\ reads_same_character_reversed (B := AsciiHost) (Js.js "Racecar")
  /\ Part000.is_palindrome (Part000.make_properties (B := AsciiHost) (Js.js "Racecar") [])
     = true.
Proof. repeat split; reflexivity. Qed.

(** ** The character counts *)

Lemma char_loop_components (cps : list (list N))
    (s0 : gset (list N)) (m0 : gmap (list N) nat) :
  fold_left IndexJs.loop_body cps (s0, m0)
  = (list_to_set cps ∪ s0,
     fold_left (fun m ch => <[ch := default 0 (m !! ch) + 1]> m) cps m0).
Proof.
  revert s0 m0. induction cps as [|ch cps IH]; intros s0 m0; simpl.
  - by rewrite (left_id_L ∅ (∪)).
  - rewrite IH. f_equal.
    rewrite (assoc_L (∪)). by rewrite (comm_L (∪) (list_to_set cps)).
Qed.

Lemma freq_fold_from_empty (cps : list (list N)) :
  let m := fold_left (fun m ch => <[ch := default 0 (m !! ch) + 1]> m) cps
             (∅ : gmap (list N) nat) in
  size (list_to_set cps : gset (list N)) = size m
  /\ (forall k n, m !! k = Some n -> 1 <= n)
  /\ sum_counts m = List.length cps.
Proof.
  destruct (freq_fold_invariant cps ∅) as (Hs & Hd & Hp).
  split; [|split].
  - rewrite <- (size_dom (D := gset (list N))), Hd, dom_empty_L.
    by rewrite (right_id_L ∅ (∪)).
  - apply Hp. intros k n. rewrite lookup_empty. discriminate.
  - rewrite Hs, sum_counts_empty. reflexivity.
Qed.

(** C10, as stated, fails in both files: for the string made of the one
    surrogate pair U+D83D U+DE00 (already trimmed, not empty) the loop over
    the string visits one code point, so the counts sum to 1, and the
    [length] property is 2. *)
Lemma C10_counterexample :
  exists str hash : list N,
    Js.trim str = str /\ str <> []
    /\ sum_counts (Part000.character_frequency_map
                     (Part000.make_properties (B := AsciiHost) str hash)) = 1
    /\ Part000.length (Part000.make_properties (B := AsciiHost) str hash) = 2
    /\ sum_counts (IndexJs.character_frequency_map
                     (IndexJs.make_properties (B := AsciiHost) str hash)) = 1
    /\ IndexJs.length (IndexJs.make_properties (B := AsciiHost) str hash) = 2.
Proof.
  exists [0xD83D; 0xDE00]%N, [].
  split; [reflexivity|]. split; [discriminate|].
  split; [vm_compute; reflexivity|]. split; [reflexivity|].
  split; [vm_compute; reflexivity|]. reflexivity.
Qed.

(** C10, amended. In both files, for every string, [unique_characters] is
    the number of keys of [character_frequency_map], every count is at
    least 1, and the counts sum to the number of code points the string
    iterator yields; that number is at most the [length] property and is
    equal to it when no high surrogate is directly followed by a low
    surrogate. *)
Theorem C10_frequency_map_invariant `{B : Builtins} (str hash : list N) :
  let p := Part000.make_properties str hash in
  let q := IndexJs.make_properties str hash in
  (Part000.unique_characters p = size (Part000.character_frequency_map p)
   /\ (forall k n, Part000.character_frequency_map p !! k = Some n -> 1 <= n)
   /\ sum_counts (Part000.character_frequency_map p) = List.length (Js.code_points str)
   /\ sum_counts (Part000.character_frequency_map p) <= Part000.length p
   /\ (Js.has_surrogate_pair str = false ->
       sum_counts (Part000.character_frequency_map p) = Part000.length p))
  /\ (IndexJs.unique_characters q = size (IndexJs.character_frequency_map q)
      /\ (forall k n, IndexJs.character_frequency_map q !! k = Some n -> 1 <= n)
      /\ sum_counts (IndexJs.character_frequency_map q) = List.length (Js.code_points str)
      /\ sum_counts (IndexJs.character_frequency_map q) <= IndexJs.length q
      /\ (Js.has_surrogate_pair str = false ->
          sum_counts (IndexJs.character_frequency_map q) = IndexJs.length q)).
Proof.
  destruct (freq_fold_from_empty (Js.code_points str)) as (Hsize & Hpos & Hsum).
  pose proof (code_points_length_le str) as Hle.
  pose proof (code_points_length_no_pair str) as Heq.
  cbn zeta. split.
  - cbn [Part000.make_properties Part000.unique_characters
         Part000.character_frequency_map Part000.length].
    unfold Part000.charSet, Part000.charFreq.
    repeat split; [exact Hsize | exact Hpos | exact Hsum | lia |].
    intros Hp. rewrite Hsum. auto.
  - cbn [IndexJs.make_properties IndexJs.unique_characters
         IndexJs.character_frequency_map IndexJs.length].
    unfold IndexJs.uniqueChars, IndexJs.charFreq, IndexJs.char_loop.
    rewrite char_loop_components. cbn [fst snd].
    rewrite (right_id_L ∅ (∪)).
    repeat split; [exact Hsize | exact Hpos | exact Hsum | lia |].
    intros Hp. rewrite Hsum. auto.
Qed.

(** * Further properties of the handlers *)

(** ** [trim] *)

Lemma trim_start_split (s : list N) :
  exists p, s = p ++ Js.trim_start s /\ Forall (fun u => Js.is_whitespace u = true) p.
Proof.
  induction s as [|u t IH]; simpl.
  - exists []. split; [reflexivity | constructor].
  - destruct (Js.is_whitespace u) eqn:E.
    + destruct IH as (p & Hp & Hws). exists (u :: p). split.
      * simpl. congruence.
      * constructor; assumption.
    + exists []. split; [reflexivity | constructor].
Qed.

Lemma trim_start_head (s : list N) (u : N) (t : list N) :
  Js.trim_start s = u :: t -> Js.is_whitespace u = false.
Proof.
  induction s as [|v s IH]; simpl; [discriminate|].
  destruct (Js.is_whitespace v) eqn:E; [exact IH|].
  intros [= <- _]. exact E.
Qed.

Lemma trim_start_fixed (u : N) (t : list N) :
  Js.is_whitespace u = false -> Js.trim_start (u :: t) = u :: t.
Proof. intros E. simpl. rewrite E. reflexivity. Qed.

Lemma trim_start_nil_iff (s : list N) :
  Js.trim_start s = [] <-> Forall (fun u => Js.is_whitespace u = true) s.
Proof.
  induction s as [|u t IH]; simpl.
  - split; [constructor | reflexivity].
  - destruct (Js.is_whitespace u) eqn:E.
    + rewrite IH. split.
      * intros H. constructor; assumption.
      * intros H. exact (Forall_inv_tail H).
    + split; [discriminate|]. intros H. pose proof (Forall_inv H). congruence.
Qed.

Lemma trim_nil_iff (s : list N) :
  Js.trim s = [] <-> Forall (fun u => Js.is_whitespace u = true) s.
Proof.
  unfold Js.trim. split.
  - intros H. apply (f_equal (@rev N)) in H. rewrite rev_involutive in H. simpl in H.
    apply trim_start_nil_iff in H. apply Forall_rev in H. rewrite rev_involutive in H.
    apply trim_start_nil_iff.
    destruct (Js.trim_start s) as [|u t] eqn:E; [reflexivity|].
    pose proof (trim_start_head s u t E) as Hu.
    pose proof (Forall_inv H). congruence.
  - intros H. apply trim_start_nil_iff in H. rewrite H. reflexivity.
Qed.

(** The trimmed string starts and ends with a code unit that is not
    whitespace. *)
Lemma trim_ends (s : list N) :
  match Js.trim s with
  | [] => True
  | u :: t => Js.is_whitespace u = false
              /\ Js.is_whitespace (List.last (u :: t) u) = false
  end.
Proof.
  unfold Js.trim.
  destruct (Js.trim_start s) as [|a X'] eqn:EX; [exact I|].
  pose proof (trim_start_head s a X' EX) as Ha.
  destruct (Js.trim_start (rev (a :: X'))) as [|y Y'] eqn:EY; [exact I|].
  pose proof (trim_start_head _ y Y' EY) as Hy.
  destruct (trim_start_split (rev (a :: X'))) as (p & Hp & _).
  rewrite EY in Hp. apply (f_equal (@rev N)) in Hp.
  rewrite rev_involutive, rev_app_distr in Hp.
  destruct (rev (y :: Y')) as [|c Z] eqn:EZ.
  - apply (f_equal (@List.length N)) in EZ. rewrite length_rev in EZ. discriminate.
  - simpl in Hp. injection Hp as <- _. split; [exact Ha|].
    assert (HL : List.last (a :: Z) a = y).
    { rewrite <- EZ. simpl. rewrite last_last. reflexivity. }
    rewrite HL. exact Hy.
Qed.

Lemma trim_fixed_of_ends (s : list N) (u : N) :
  s <> [] ->
  Js.is_whitespace (List.hd u s) = false ->
  Js.is_whitespace (List.last s u) = false ->
  Js.trim s = s.
Proof.
  intros Hne Hh Hl. unfold Js.trim.
  destruct s as [|a t]; [congruence|]. simpl in Hh.
  rewrite (trim_start_fixed a t Hh).
  destruct (rev (a :: t)) as [|c Z] eqn:EZ.
  - apply (f_equal (@List.length N)) in EZ. rewrite length_rev in EZ. discriminate.
  - assert (Hc : c = List.last (a :: t) u).
    { apply (f_equal (@rev N)) in EZ. rewrite rev_involutive in EZ.
      rewrite EZ. simpl. rewrite last_last. reflexivity. }
    rewrite (trim_start_fixed c Z) by (rewrite Hc; exact Hl).
    rewrite <- EZ. apply rev_involutive.
Qed.

(** Trimming twice is trimming once. *)
Lemma trim_idempotent (s : list N) : Js.trim (Js.trim s) = Js.trim s.
Proof.
  pose proof (trim_ends s) as H.
  destruct (Js.trim s) as [|u t] eqn:E; [reflexivity|].
  destruct H as [Hu Hl].
  apply (trim_fixed_of_ends (u :: t) u); [congruence | exact Hu | exact Hl].
Qed.

(** ** The [Map]: further lemmas *)

Section MapFacts.
Context {V : Type}.
Implicit Types (m : list (list N * V)) (k : list N) (v : V).

Lemma map_get_None_iff k m : JsMap.get k m = None <-> ~ In k (map fst m).
Proof.
induction m as [|[k' v'] m IH]; simpl.
- tauto.
- destruct (bool_decide (k = k')) eqn:E.
  + apply bool_decide_eq_true_1 in E. split; [discriminate | intros H; exfalso; auto].
  + apply bool_decide_eq_false_1 in E. rewrite IH. split.
    * intros H [H1 | H1]; [congruence | auto].
    * intros H H1. apply H. right. exact H1.
Qed.

Lemma map_set_fresh k v m : JsMap.has k m = false -> JsMap.set k v m = m ++ [(k, v)].
Proof.
unfold JsMap.has. induction m as [|[k' v'] m IH]; simpl; [reflexivity|].
destruct (bool_decide (k = k')); [discriminate|].
intros H. rewrite (IH H). reflexivity.
Qed.

Lemma map_delete_absent k m : JsMap.has k m = false -> JsMap.delete k m = m.
Proof.
unfold JsMap.has. induction m as [|[k' v'] m IH]; simpl; [reflexivity|].
destruct (bool_decide (k = k')); [discriminate|].
intros H. rewrite (IH H). reflexivity.
Qed.

Lemma map_delete_incl k m e : In e (JsMap.delete k m) -> In e m.
Proof.
induction m as [|[k' v'] m IH]; simpl; [tauto|].
destruct (bool_decide (k = k')); simpl; [tauto|].
intros [H | H]; [left; exact H | right; exact (IH H)].
Qed.

Lemma map_delete_keys_incl k m k0 :
  In k0 (map fst (JsMap.delete k m)) -> In k0 (map fst m).
Proof.
rewrite !in_map_iff. intros (e & He & Hin). exists e. split; [exact He|].
exact (map_delete_incl k m e Hin).
Qed.

Lemma map_delete_NoDup k m :
  NoDup (map fst m) -> NoDup (map fst (JsMap.delete k m)).
Proof.
induction m as [|[k' v'] m IH]; simpl; [trivial|].
intros H. pose proof (NoDup_cons_1_1 _ _ H) as Hn.
pose proof (NoDup_cons_1_2 _ _ H) as Hm.
destruct (bool_decide (k = k')); [exact Hm|].
simpl. apply NoDup_cons_2; [|exact (IH Hm)].
rewrite list_elem_of_In. intros Hin. apply Hn. rewrite list_elem_of_In.
exact (map_delete_keys_incl k m k' Hin).
Qed.

Lemma map_get_delete_eq k m :
  NoDup (map fst m) -> JsMap.get k (JsMap.delete k m) = None.
Proof.
induction m as [|[k' v'] m IH]; simpl; [reflexivity|].
intros H. pose proof (NoDup_cons_1_1 _ _ H) as Hn.
pose proof (NoDup_cons_1_2 _ _ H) as Hm.
destruct (bool_decide (k = k')) eqn:E.
- apply bool_decide_eq_true_1 in E as <-.
  apply map_get_None_iff. rewrite <- list_elem_of_In. exact Hn.
- simpl. rewrite E. exact (IH Hm).
Qed.

Lemma map_get_delete_ne k k0 m :
  k <> k0 -> JsMap.get k0 (JsMap.delete k m) = JsMap.get k0 m.
Proof.
intros Hne. induction m as [|[k' v'] m IH]; simpl; [reflexivity|].
destruct (bool_decide (k = k')) eqn:E.
- apply bool_decide_eq_true_1 in E as <-.
  rewrite bool_decide_eq_false_2 by congruence. reflexivity.
- simpl. rewrite IH. reflexivity.
Qed.

Lemma map_set_fresh_NoDup k v m :
  JsMap.has k m = false -> NoDup (map fst m) -> NoDup (map fst (JsMap.set k v m)).
Proof.
intros Hk Hm. rewrite (map_set_fresh k v m Hk), map_app. simpl.
apply NoDup_app. split; [exact Hm|]. split.
- intros x Hx Hx'. apply list_elem_of_In in Hx. apply list_elem_of_In in Hx'.
  destruct Hx' as [<- | []].
  apply map_has_false_get in Hk. apply map_get_None_iff in Hk. auto.
- apply NoDup_singleton.
Qed.
End MapFacts.

(** ** POST /strings: what it does to the store *)

Lemma truthy_false_iff (s : list N) : negb (Js.truthy s) = true <-> s = [].
Proof. destruct s; simpl; split; congruence. Qed.

Lemma truthy_true_of_ne (s : list N) : s <> [] -> negb (Js.truthy s) = false.
Proof. destruct s; simpl; congruence. Qed.

(** X1. In both files POST /strings touches the store only when it answers
    201: the new record is then appended after the existing entries, under
    its own [id], a key the store did not have; every other answer is 400,
    409 or 422 and leaves the store as it was. *)
Theorem post_strings_store_effect `{B : Builtins} (now : list N)
    (store000 : list (list N * Part000.StoredObj))
    (storeIndex : list (list N * IndexJs.StoredObj)) (value : option json) :
  let r := fst (Part000.post_strings now store000 value) in
  let st := snd (Part000.post_strings now store000 value) in
  let r' := fst (IndexJs.post_strings now storeIndex value) in
  let st' := snd (IndexJs.post_strings now storeIndex value) in
  ((status_of r = 201 ->
    exists obj, r = Responded 201 (Part000.RecordBody obj)
                /\ st = store000 ++ [(Part000.id obj, obj)]
                /\ JsMap.get (Part000.id obj) store000 = None)
   /\ (status_of r <> 201 ->
       st = store000 /\ (status_of r = 400 \/ status_of r = 409 \/ status_of r = 422)))
  /\ ((status_of r' = 201 ->
       exists obj, r' = Responded 201 (IndexJs.RecordBody (Some obj))
                   /\ st' = storeIndex ++ [(IndexJs.id obj, obj)]
                   /\ JsMap.get (IndexJs.id obj) storeIndex = None)
      /\ (status_of r' <> 201 ->
          st' = storeIndex
          /\ (status_of r' = 400 \/ status_of r' = 409 \/ status_of r' = 422))).
Proof.
  cbn zeta. split.
  - unfold Part000.post_strings.
    destruct value as [[| | |v| |]|]; cbn [fst snd status_of];
      try (split; [intros H; exfalso; lia | intros _; split; [reflexivity | lia]]).
    destruct (negb (Js.truthy (Js.trim v))); cbn [fst snd status_of];
      try (split; [intros H; exfalso; lia | intros _; split; [reflexivity | lia]]).
    destruct (JsMap.has (sha256_hex (Js.trim v)) store000) eqn:Hh; cbn [fst snd status_of];
      try (split; [intros H; exfalso; lia | intros _; split; [reflexivity | lia]]).
    split; [|intros H; exfalso; apply H; reflexivity].
    intros _. eexists. split; [reflexivity|]. cbn [Part000.id].
    split; [apply map_set_fresh; exact Hh | apply map_has_false_get; exact Hh].
  - unfold IndexJs.post_strings.
    destruct value as [[| | |v| |]|]; cbn [fst snd status_of];
      try (split; [intros H; exfalso; lia | intros _; split; [reflexivity | lia]]).
    destruct (negb (Js.truthy (Js.trim v))); cbn [fst snd status_of];
      try (split; [intros H; exfalso; lia | intros _; split; [reflexivity | lia]]).
    destruct (JsMap.has (sha256_hex (Js.trim v)) storeIndex) eqn:Hh; cbn [fst snd status_of];
      try (split; [intros H; exfalso; lia | intros _; split; [reflexivity | lia]]).
    split; [|intros H; exfalso; apply H; reflexivity].
    intros _. eexists. split; [reflexivity|]. cbn [IndexJs.id].
    split; [apply map_set_fresh; exact Hh | apply map_has_false_get; exact Hh].
Qed.

(** X2. In both files a string value is answered with 400 exactly when it
    consists of whitespace only (the empty string included). *)
Theorem post_strings_blank_iff `{B : Builtins} (now v : list N)
    (store000 : list (list N * Part000.StoredObj))
    (storeIndex : list (list N * IndexJs.StoredObj)) :
  (status_of (fst (Part000.post_strings now store000 (Some (JString v)))) = 400
   <-> Forall (fun u => Js.is_whitespace u = true) v)
  /\ (status_of (fst (IndexJs.post_strings now storeIndex (Some (JString v)))) = 400
      <-> Forall (fun u => Js.is_whitespace u = true) v).
Proof.
  rewrite <- trim_nil_iff.
  unfold Part000.post_strings, IndexJs.post_strings.
  destruct (Js.trim v) as [|u t] eqn:E; cbn [Js.truthy negb fst snd status_of].
  - split; split; intros; reflexivity.
  - destruct (JsMap.has _ store000), (JsMap.has _ storeIndex);
      cbn [fst snd status_of]; split; split; intros H; try discriminate; lia.
Qed.

(** ** POST then GET *)

(** X3. After a POST that answered 201, GET /strings/:value finds the new
    record, in both files, for every path value with the same trimmed text
    as the posted one, and in particular for the [value] field of the
    record itself. *)
Theorem post_then_get_finds_record `{B : Builtins} (now v v' : list N)
    (store000 : list (list N * Part000.StoredObj))
    (storeIndex : list (list N * IndexJs.StoredObj)) :
  Js.trim v <> [] ->
  Js.trim v' = Js.trim v ->
  JsMap.has (sha256_hex (Js.trim v)) store000 = false ->
  JsMap.has (sha256_hex (Js.trim v)) storeIndex = false ->
  (exists obj st,
     Part000.post_strings now store000 (Some (JString v))
       = (Responded 201 (Part000.RecordBody obj), st)
     /\ Part000.get_string st v' = Responded 200 (Part000.RecordBody obj)
     /\ Part000.get_string st (Part000.value obj)
        = Responded 200 (Part000.RecordBody obj))
  /\ (exists obj st,
        IndexJs.post_strings now storeIndex (Some (JString v))
          = (Responded 201 (IndexJs.RecordBody (Some obj)), st)
        /\ IndexJs.get_string st v' = Responded 200 (IndexJs.RecordBody (Some obj))
        /\ IndexJs.get_string st (IndexJs.value obj)
           = Responded 200 (IndexJs.RecordBody (Some obj))).
Proof.
  intros Hne Hv' H000 HIdx.
  pose proof (truthy_true_of_ne _ Hne) as Ht.
  assert (Hv'ne : negb (Js.truthy v') = false).
  { apply truthy_true_of_ne. intros ->. apply Hne. rewrite <- Hv'. reflexivity. }
  pose proof (trim_idempotent v) as Hidem.
  split.
  - unfold Part000.post_strings. rewrite Ht, H000.
    eexists _, _. split; [reflexivity|]. cbn [Part000.value].
    unfold Part000.get_string.
    rewrite Hv'ne, Ht, Hv', Hidem, Ht, map_get_set_eq. split; reflexivity.
  - unfold IndexJs.post_strings. rewrite Ht, HIdx.
    eexists _, _. split; [reflexivity|]. cbn [IndexJs.value].
    unfold IndexJs.get_string.
    rewrite Hv'ne, Ht, Hv', Hidem, Ht, map_get_set_eq. split; reflexivity.
Qed.

Lemma post_then_get_witness :
  (exists obj st,
     Part000.post_strings (B := AsciiHost) (Js.js "t") [] (Some (JString (Js.js " ab ")))
       = (Responded 201 (Part000.RecordBody obj), st)
     /\ Part000.get_string (B := AsciiHost) st (Js.js "ab  ")
        = Responded 200 (Part000.RecordBody obj)
     /\ Part000.get_string (B := AsciiHost) st (Part000.value obj)
        = Responded 200 (Part000.RecordBody obj))
  /\ (exists obj st,
        IndexJs.post_strings (B := AsciiHost) (Js.js "t") [] (Some (JString (Js.js " ab ")))
          = (Responded 201 (IndexJs.RecordBody (Some obj)), st)
        /\ IndexJs.get_string (B := AsciiHost) st (Js.js "ab  ")
           = Responded 200 (IndexJs.RecordBody (Some obj))
        /\ IndexJs.get_string (B := AsciiHost) st (IndexJs.value obj)
           = Responded 200 (IndexJs.RecordBody (Some obj))).
Proof.
  refine (post_then_get_finds_record (B := AsciiHost) (Js.js "t") (Js.js " ab ")
            (Js.js "ab  ") [] [] _ eq_refl eq_refl eq_refl).
  vm_compute. discriminate.
Defined.

(** ** The invariant of the store *)

Lemma Forall_delete {V : Type} (P : list N * V -> Prop) (k : list N)
    (m : list (list N * V)) :
  Forall P m -> Forall P (JsMap.delete k m).
Proof.
  rewrite !List.Forall_forall. intros H e He. apply H.
  exact (map_delete_incl k m e He).
Qed.

Lemma post_strings_keeps_store_ok_000 `{B : Builtins} (now : list N)
    (st : list (list N * Part000.StoredObj)) (value : option json) :
  store_ok_000 st -> store_ok_000 (snd (Part000.post_strings now st value)).
Proof.
  intros [Hnd Hrec]. unfold Part000.post_strings.
  destruct value as [[| | |v| |]|]; cbn [snd]; try (split; assumption).
  destruct (negb (Js.truthy (Js.trim v))) eqn:Ht; cbn [snd]; [split; assumption|].
  destruct (JsMap.has (sha256_hex (Js.trim v)) st) eqn:Hh; cbn [snd]; [split; assumption|].
  split; [apply map_set_fresh_NoDup; assumption|].
  rewrite (map_set_fresh _ _ _ Hh). apply Forall_app. split; [exact Hrec|].
  constructor; [|constructor].
  unfold record_ok_000. cbn.
  repeat split; try reflexivity.
  - intros E. rewrite E in Ht. discriminate.
  - apply trim_idempotent.
Qed.

Lemma post_strings_keeps_store_ok_index `{B : Builtins} (now : list N)
    (st : list (list N * IndexJs.StoredObj)) (value : option json) :
  store_ok_index st -> store_ok_index (snd (IndexJs.post_strings now st value)).
Proof.
  intros [Hnd Hrec]. unfold IndexJs.post_strings.
  destruct value as [[| | |v| |]|]; cbn [snd]; try (split; assumption).
  destruct (negb (Js.truthy (Js.trim v))) eqn:Ht; cbn [snd]; [split; assumption|].
  destruct (JsMap.has (sha256_hex (Js.trim v)) st) eqn:Hh; cbn [snd]; [split; assumption|].
  split; [apply map_set_fresh_NoDup; assumption|].
  rewrite (map_set_fresh _ _ _ Hh). apply Forall_app. split; [exact Hrec|].
  constructor; [|constructor].
  unfold record_ok_index. cbn.
  repeat split; try reflexivity.
  - intros E. rewrite E in Ht. discriminate.
  - apply trim_idempotent.
Qed.

Lemma delete_string_keeps_store_ok_000 `{B : Builtins}
    (st : list (list N * Part000.StoredObj)) (value : list N) :
  store_ok_000 st -> store_ok_000 (snd (Part000.delete_string st value)).
Proof.
  intros [Hnd Hrec]. unfold Part000.delete_string.
  destruct (negb (Js.truthy value)); cbn [snd]; [split; assumption|].
  destruct (negb (Js.truthy (Js.trim value))); cbn [snd]; [split; assumption|].
  destruct (negb (JsMap.has _ st)); cbn [snd]; [split; assumption|].
  split; [apply map_delete_NoDup; exact Hnd | apply Forall_delete; exact Hrec].
Qed.

Lemma delete_string_keeps_store_ok_index `{B : Builtins}
    (st : list (list N * IndexJs.StoredObj)) (value : list N) :
  store_ok_index st -> store_ok_index (snd (IndexJs.delete_string st value)).
Proof.
  intros [Hnd Hrec]. unfold IndexJs.delete_string.
  destruct (negb (Js.truthy value)); cbn [snd]; [split; assumption|].
  destruct (negb (Js.truthy (Js.trim value))); cbn [snd]; [split; assumption|].
  destruct (negb (JsMap.has _ st)); cbn [snd]; [split; assumption|].
  split; [apply map_delete_NoDup; exact Hnd | apply Forall_delete; exact Hrec].
Qed.

Lemma store_ok_empty `{B : Builtins} : store_ok_000 [] /\ store_ok_index [].
Proof. split; (split; [apply NoDup_nil_2 | constructor]). Qed.

(** X4. The store invariant is kept by both handlers that write, in both
    files: if the keys of the store are distinct and every record sits
    under its [id], the digest of its trimmed non-empty [value], with the
    properties computed from that value, then the same holds after any
    POST /strings and after any DELETE /strings/:value. *)
Theorem handlers_keep_store_invariant `{B : Builtins} (now : list N)
    (store000 : list (list N * Part000.StoredObj))
    (storeIndex : list (list N * IndexJs.StoredObj))
    (body : option json) (path : list N) :
  store_ok_000 store000 ->
  store_ok_index storeIndex ->
  store_ok_000 (snd (Part000.post_strings now store000 body))
  /\ store_ok_000 (snd (Part000.delete_string store000 path))
  /\ store_ok_index (snd (IndexJs.post_strings now storeIndex body))
  /\ store_ok_index (snd (IndexJs.delete_string storeIndex path)).
Proof.
  intros H0 H1. repeat split.
  - apply post_strings_keeps_store_ok_000; exact H0.
  - apply post_strings_keeps_store_ok_000; exact H0.
  - apply delete_string_keeps_store_ok_000; exact H0.
  - apply delete_string_keeps_store_ok_000; exact H0.
  - apply post_strings_keeps_store_ok_index; exact H1.
  - apply post_strings_keeps_store_ok_index; exact H1.
  - apply delete_string_keeps_store_ok_index; exact H1.
  - apply delete_string_keeps_store_ok_index; exact H1.
Qed.

Lemma handlers_keep_store_invariant_witness :
  store_ok_000 (B := AsciiHost)
    (snd (Part000.post_strings (B := AsciiHost) (Js.js "t") [] (Some (JString (Js.js "ab")))))
  /\ store_ok_000 (B := AsciiHost)
       (snd (Part000.delete_string (B := AsciiHost) [] (Js.js "ab")))
  /\ store_ok_index (B := AsciiHost)
       (snd (IndexJs.post_strings (B := AsciiHost) (Js.js "t") [] (Some (JString (Js.js "ab")))))
  /\ store_ok_index (B := AsciiHost)
       (snd (IndexJs.delete_string (B := AsciiHost) [] (Js.js "ab"))).
Proof.
  exact (handlers_keep_store_invariant (B := AsciiHost) (Js.js "t") [] []
           (Some (JString (Js.js "ab"))) (Js.js "ab")
           (proj1 (store_ok_empty (B := AsciiHost)))
           (proj2 (store_ok_empty (B := AsciiHost)))).
Defined.

(** ** DELETE /strings/:value *)

(** X5. In both files, on a store with distinct keys that holds the digest
    of the trimmed path value, DELETE answers 204; afterwards the digest is
    gone, every other key reads as before, a second DELETE of the same value
    answers 404 and changes nothing, and the value can be posted again with
    answer 201. In the unnamed file GET of the value then answers 404. *)
Theorem delete_string_removes_once `{B : Builtins} (now value : list N)
    (store000 : list (list N * Part000.StoredObj))
    (storeIndex : list (list N * IndexJs.StoredObj)) :
  Js.trim value <> [] ->
  NoDup (map fst store000) ->
  NoDup (map fst storeIndex) ->
  JsMap.has (sha256_hex (Js.trim value)) store000 = true ->
  JsMap.has (sha256_hex (Js.trim value)) storeIndex = true ->
  (exists st,
     Part000.delete_string store000 value = (Responded 204 Part000.NoBody, st)
     /\ JsMap.get (sha256_hex (Js.trim value)) st = None
     /\ (forall k, k <> sha256_hex (Js.trim value) ->
                   JsMap.get k st = JsMap.get k store000)
     /\ Part000.delete_string st value
        = (Responded 404 (Part000.ErrorBody "String not found"), st)
     /\ Part000.get_string st value
        = Responded 404 (Part000.ErrorBody "String not found")
     /\ status_of (fst (Part000.post_strings now st (Some (JString value)))) = 201)
  /\ (exists st,
        IndexJs.delete_string storeIndex value = (Responded 204 IndexJs.NoBody, st)
        /\ JsMap.get (sha256_hex (Js.trim value)) st = None
        /\ (forall k, k <> sha256_hex (Js.trim value) ->
                      JsMap.get k st = JsMap.get k storeIndex)
        /\ IndexJs.delete_string st value
           = (Responded 404 (IndexJs.ErrorBody "String not found"), st)
        /\ status_of (fst (IndexJs.post_strings now st (Some (JString value)))) = 201).
Proof.
  intros Hne Hnd0 Hnd1 Hh0 Hh1.
  pose proof (truthy_true_of_ne _ Hne) as Ht.
  assert (Hv : negb (Js.truthy value) = false).
  { apply truthy_true_of_ne. intros ->. apply Hne. reflexivity. }
  split.
  - pose proof (map_get_delete_eq (sha256_hex (Js.trim value)) store000 Hnd0) as Hg.
    assert (Hh : JsMap.has (sha256_hex (Js.trim value))
                   (JsMap.delete (sha256_hex (Js.trim value)) store000) = false)
      by (apply map_has_false_get; exact Hg).
    exists (JsMap.delete (sha256_hex (Js.trim value)) store000).
    unfold Part000.delete_string, Part000.get_string, Part000.post_strings.
    rewrite Hv, Ht, Hh0, Hh, Hg. cbn [negb fst status_of].
    repeat split; try reflexivity.
    intros k Hk. apply map_get_delete_ne. congruence.
  - pose proof (map_get_delete_eq (sha256_hex (Js.trim value)) storeIndex Hnd1) as Hg.
    assert (Hh : JsMap.has (sha256_hex (Js.trim value))
                   (JsMap.delete (sha256_hex (Js.trim value)) storeIndex) = false)
      by (apply map_has_false_get; exact Hg).
    exists (JsMap.delete (sha256_hex (Js.trim value)) storeIndex).
    unfold IndexJs.delete_string, IndexJs.post_strings.
    rewrite Hv, Ht, Hh1, Hh. cbn [negb fst status_of].
    repeat split; try reflexivity; try exact Hg.
    intros k Hk. apply map_get_delete_ne. congruence.
Qed.

Lemma delete_string_removes_once_witness :
  (exists st,
     Part000.delete_string (B := AsciiHost) sample_store_000 (Js.js " ab")
       = (Responded 204 Part000.NoBody, st)
     /\ JsMap.get (sha256_hex (Builtins := AsciiHost) (Js.trim (Js.js " ab"))) st = None
     /\ (forall k, k <> sha256_hex (Builtins := AsciiHost) (Js.trim (Js.js " ab")) ->
                   JsMap.get k st = JsMap.get k sample_store_000)
     /\ Part000.delete_string (B := AsciiHost) st (Js.js " ab")
        = (Responded 404 (Part000.ErrorBody "String not found"), st)
     /\ Part000.get_string (B := AsciiHost) st (Js.js " ab")
        = Responded 404 (Part000.ErrorBody "String not found")
     /\ status_of (fst (Part000.post_strings (B := AsciiHost) (Js.js "t2") st
                          (Some (JString (Js.js " ab"))))) = 201)
  /\ (exists st,
        IndexJs.delete_string (B := AsciiHost) sample_store_index (Js.js " ab")
          = (Responded 204 IndexJs.NoBody, st)
        /\ JsMap.get (sha256_hex (Builtins := AsciiHost) (Js.trim (Js.js " ab"))) st = None
        /\ (forall k, k <> sha256_hex (Builtins := AsciiHost) (Js.trim (Js.js " ab")) ->
                      JsMap.get k st = JsMap.get k sample_store_index)
        /\ IndexJs.delete_string (B := AsciiHost) st (Js.js " ab")
           = (Responded 404 (IndexJs.ErrorBody "String not found"), st)
        /\ status_of (fst (IndexJs.post_strings (B := AsciiHost) (Js.js "t2") st
                             (Some (JString (Js.js " ab"))))) = 201).
Proof.
  refine (delete_string_removes_once (B := AsciiHost) (Js.js "t2") (Js.js " ab")
            sample_store_000 sample_store_index _ _ _ eq_refl eq_refl).
  - vm_compute. discriminate.
  - apply NoDup_singleton.
  - apply NoDup_singleton.
Defined.

(** ** The frequency object records the occurrences *)

Lemma occurrences_cons (ch c : list N) (cps : list (list N)) :
  occurrences ch (c :: cps) = (if bool_decide (c = ch) then 1 else 0) + occurrences ch cps.
Proof. unfold occurrences. simpl. destruct (bool_decide (c = ch)); reflexivity. Qed.

Lemma freq_fold_lookup (cps : list (list N)) (m0 : gmap (list N) nat) (ch : list N) :
  default 0 (fold_left (fun m c => <[c := default 0 (m !! c) + 1]> m) cps m0 !! ch)
  = default 0 (m0 !! ch) + occurrences ch cps.
Proof.
  revert m0. induction cps as [|c cps IH]; intros m0.
  - unfold occurrences. simpl. lia.
  - cbn [fold_left]. rewrite IH, occurrences_cons, lookup_insert.
    destruct (decide (c = ch)) as [->|Hne].
    + rewrite bool_decide_eq_true_2 by reflexivity. simpl. lia.
    + rewrite bool_decide_eq_false_2 by exact Hne. simpl. lia.
Qed.

Lemma freq_fold_lookup_empty (cps : list (list N)) (ch : list N) :
  let m := fold_left (fun m c => <[c := default 0 (m !! c) + 1]> m) cps
             (∅ : gmap (list N) nat) in
  default 0 (m !! ch) = occurrences ch cps
  /\ (m !! ch = None <-> occurrences ch cps = 0).
Proof.
  cbn zeta. pose proof (freq_fold_lookup cps ∅ ch) as H.
  rewrite lookup_empty in H. simpl in H.
  destruct (freq_fold_from_empty cps) as (_ & Hpos & _).
  split; [exact H|].
  destruct (fold_left _ cps ∅ !! ch) as [n|] eqn:E.
  - specialize (Hpos ch n E). simpl in H. split; [discriminate | lia].
  - simpl in H. split; [intros _; lia | reflexivity].
Qed.

(** X6. In both files [character_frequency_map] maps every code point of
    the string to the number of times the string iterator yields it, and
    has no key for anything else. *)
Theorem frequency_map_counts_occurrences `{B : Builtins} (str hash ch : list N) :
  let m := Part000.character_frequency_map (Part000.make_properties str hash) in
  let m' := IndexJs.character_frequency_map (IndexJs.make_properties str hash) in
  (default 0 (m !! ch) = occurrences ch (Js.code_points str)
   /\ (m !! ch = None <-> occurrences ch (Js.code_points str) = 0))
  /\ (default 0 (m' !! ch) = occurrences ch (Js.code_points str)
      /\ (m' !! ch = None <-> occurrences ch (Js.code_points str) = 0)).
Proof.
  cbn zeta. cbn [Part000.make_properties Part000.character_frequency_map
                 IndexJs.make_properties IndexJs.character_frequency_map].
  unfold Part000.charFreq, IndexJs.charFreq, IndexJs.char_loop.
  rewrite char_loop_components. cbn [snd].
  split; apply freq_fold_lookup_empty.
Qed.

(** ** The word count *)

Lemma split_ws_go_words (s cur : list N) (in_run : bool) :
  (in_run = true -> cur = []) ->
  List.length (Js.filter_Boolean (Js.split_ws_go in_run cur s))
  = b2n (Js.truthy cur) + word_starts (negb (Js.truthy cur)) s.
Proof.
  revert cur in_run. induction s as [|u t IH]; intros cur in_run Hrun.
  - simpl. destruct cur as [|c cur]; [reflexivity|].
    simpl. destruct (rev cur ++ [c]) eqn:E; [|reflexivity].
    destruct (rev cur); discriminate.
  - cbn [Js.split_ws_go word_starts]. destruct (Js.is_whitespace u) eqn:Hu.
    + rewrite andb_false_r. destruct in_run.
      * rewrite (Hrun eq_refl). rewrite (IH [] true (fun _ => eq_refl)). reflexivity.
      * assert (Hrev : Js.truthy (rev cur) = Js.truthy cur).
        { destruct cur as [|c cur]; [reflexivity|]. simpl.
          destruct (rev cur ++ [c]) eqn:E; [|reflexivity].
          destruct (rev cur); discriminate. }
        pose proof (IH [] true (fun _ => eq_refl)) as IH'.
        unfold Js.filter_Boolean in *. cbn [List.filter].
        rewrite Hrev. destruct (Js.truthy cur); cbn [List.length];
          rewrite IH'; simpl; lia.
    + rewrite (IH (u :: cur) false) by discriminate.
      destruct (Js.truthy cur); simpl; lia.
Qed.

(** X7. In both files [word_count] is the number of places where a word
    starts: a code unit that is not whitespace, at the start of the string
    or right after a whitespace code unit. *)
Theorem word_count_counts_word_starts `{B : Builtins} (str hash : list N) :
  Part000.word_count (Part000.make_properties str hash) = word_starts true str
  /\ IndexJs.word_count (IndexJs.make_properties str hash) = word_starts true str.
Proof.
  cbn [Part000.make_properties Part000.word_count
       IndexJs.make_properties IndexJs.word_count].
  unfold Part000.wordCount, IndexJs.wordCount, Js.split_ws.
  rewrite (split_ws_go_words str [] false) by discriminate.
  split; reflexivity.
Qed.

(** ** Bounds on the computed properties *)

Lemma size_list_to_set_le (l : list (list N)) :
  size (list_to_set l : gset (list N)) <= List.length l.
Proof.
  unfold size, set_size. simpl.
  apply NoDup_incl_length; [apply NoDup_ListNoDup, NoDup_elements|].
  intros x Hx. apply list_elem_of_In in Hx. apply elem_of_elements in Hx.
  apply elem_of_list_to_set in Hx. apply list_elem_of_In. exact Hx.
Qed.

Lemma size_list_to_set_pos (x : list N) (l : list (list N)) :
  1 <= size (list_to_set (x :: l) : gset (list N)).
Proof.
  destruct (size (list_to_set (x :: l) : gset (list N))) eqn:E; [|lia].
  apply size_empty_inv in E. exfalso.
  assert (H : x ∈ (list_to_set (x :: l) : gset (list N)))
    by (apply elem_of_list_to_set; left).
  rewrite E in H. exact (not_elem_of_empty x H).
Qed.

Lemma code_points_nonempty (u : N) (t : list N) : Js.code_points (u :: t) <> [].
Proof.
  destruct t as [|v t']; [discriminate|]. simpl.
  destruct (Js.is_high_surrogate u && Js.is_low_surrogate v); discriminate.
Qed.

Lemma word_starts_le (s : list N) (b : bool) : word_starts b s <= List.length s.
Proof.
  revert b. induction s as [|u t IH]; intros b; simpl; [lia|].
  specialize (IH (Js.is_whitespace u)).
  destruct (b && negb (Js.is_whitespace u)); lia.
Qed.

(** X8. In both files the properties of a stored string (trimmed, not
    empty) satisfy 1 <= unique_characters <= length and
    1 <= word_count <= length. *)
Theorem stored_properties_bounds `{B : Builtins} (v hash : list N) :
  Js.trim v <> [] ->
  let p := Part000.make_properties (Js.trim v) hash in
  let q := IndexJs.make_properties (Js.trim v) hash in
  (1 <= Part000.unique_characters p <= Part000.length p
   /\ 1 <= Part000.word_count p <= Part000.length p)
  /\ (1 <= IndexJs.unique_characters q <= IndexJs.length q
      /\ 1 <= IndexJs.word_count q <= IndexJs.length q).
Proof.
  intros Hne. cbn zeta.
  destruct (word_count_counts_word_starts (Js.trim v) hash) as [Hw0 Hw1].
  rewrite Hw0, Hw1.
  cbn [Part000.make_properties Part000.unique_characters Part000.length
       IndexJs.make_properties IndexJs.unique_characters IndexJs.length].
  unfold Part000.charSet, IndexJs.uniqueChars, IndexJs.char_loop.
  rewrite char_loop_components. cbn [fst]. rewrite (right_id_L ∅ (∪)).
  pose proof (trim_ends v) as Hends.
  pose proof (size_list_to_set_le (Js.code_points (Js.trim v))) as Hle.
  pose proof (code_points_length_le (Js.trim v)) as Hcp.
  pose proof (word_starts_le (Js.trim v) true) as Hws.
  destruct (Js.trim v) as [|u t] eqn:E; [congruence|].
  destruct Hends as [Hu _].
  assert (Hpos : 1 <= size (list_to_set (Js.code_points (u :: t)) : gset (list N))).
  { pose proof (code_points_nonempty u t) as Hcpn.
    destruct (Js.code_points (u :: t)) as [|x l]; [congruence|].
    apply size_list_to_set_pos. }
  assert (Hw : 1 <= word_starts true (u :: t)).
  { cbn [word_starts]. rewrite Hu. simpl. lia. }
  repeat split; lia.
Qed.

Lemma stored_properties_bounds_witness :
  let p := Part000.make_properties (B := AsciiHost) (Js.trim (Js.js " a b ")) [] in
  let q := IndexJs.make_properties (B := AsciiHost) (Js.trim (Js.js " a b ")) [] in
  (1 <= Part000.unique_characters p <= Part000.length p
   /\ 1 <= Part000.word_count p <= Part000.length p)
  /\ (1 <= IndexJs.unique_characters q <= IndexJs.length q
      /\ 1 <= IndexJs.word_count q <= IndexJs.length q).
Proof.
  refine (stored_properties_bounds (B := AsciiHost) (Js.js " a b ") [] _).
  vm_compute. discriminate.
Defined.

(** ** GET /strings with the length bounds *)

Lemma filter_ext_Forall {A : Type} (P : A -> Prop) (f g : A -> bool) (l : list A) :
  Forall P l -> (forall x, P x -> f x = g x) -> List.filter f l = List.filter g l.
Proof.
  intros Hl Hfg. induction Hl as [|x l Hx _ IH]; [reflexivity|].
  simpl. rewrite (Hfg x Hx), IH. reflexivity.
Qed.

Lemma int_param_digits (ds : list N) :
  ds <> [] -> Forall (fun u => Js.is_digit u = true) ds -> (decimal ds <= 2 ^ 53)%Z ->
  Js.truthy ds = true /\ Js.parseInt ds = Js.Num (decimal ds).
Proof.
  intros Hne Hds Hle. split; [destruct ds; [congruence | reflexivity]|].
  rewrite (parseInt_digits ds Hne Hds). apply to_double_exact.
  pose proof (decimal_nonneg ds Hds). lia.
Qed.

(** X9. In the unnamed file GET /strings with [min_length] and [max_length]
    given as decimal numbers (up to 2^53) and no other parameter answers 200
    with exactly the stored records whose [length] lies between the two
    bounds, both included, in the order of the store, and with their
    number as [count]. *)
Theorem get_strings_length_bounds `{B : Builtins}
    (stringStore : list (list N * Part000.StoredObj)) (lo hi : list N) :
  lo <> [] -> Forall (fun u => Js.is_digit u = true) lo -> (decimal lo <= 2 ^ 53)%Z ->
  hi <> [] -> Forall (fun u => Js.is_digit u = true) hi -> (decimal hi <= 2 ^ 53)%Z ->
  let data :=
    List.filter
      (fun obj =>
         let n := Z.of_nat (Part000.length (Part000.properties obj)) in
         (decimal lo <=? n)%Z && (n <=? decimal hi)%Z)
      (JsMap.values stringStore) in
  exists filters,
    Part000.get_strings stringStore (length_bounds_000 lo hi)
    = Responded 200 (Part000.ListBody data (List.length data) filters).
Proof.
  intros Hlo1 Hlo2 Hlo3 Hhi1 Hhi2 Hhi3. cbn zeta.
  destruct (int_param_digits lo Hlo1 Hlo2 Hlo3) as [Tlo Plo].
  destruct (int_param_digits hi Hhi1 Hhi2 Hhi3) as [Thi Phi].
  unfold Part000.get_strings, length_bounds_000, Part000.make_filters,
    Part000.bad_bool, Part000.bad_int, Part000.bad_char, Part000.int_filter.
  cbn [Part000.q_is_palindrome Part000.q_min_length Part000.q_max_length
       Part000.q_word_count Part000.q_contains_character].
  rewrite Tlo, Plo, Thi, Phi. cbn [Js.isNaN andb].
  eexists.
  match goal with |- Responded _ (Part000.ListBody ?a _ _) = Responded _ (Part000.ListBody ?b _ _) =>
    assert (Hd : a = b) end.
  { apply (filter_ext_Forall (fun _ => True)); [apply Forall_forall; auto|].
    intros obj _. unfold Part000.matches.
    cbn [Part000.f_is_palindrome Part000.f_min_length Part000.f_max_length
         Part000.f_word_count Part000.f_contains_character].
    unfold Js.gt, Js.lt, Js.of_nat.
    set (n := Z.of_nat (Part000.length (Part000.properties obj))).
    destruct (Z.ltb_spec n (decimal lo)) as [H1|H1];
      destruct (Z.leb_spec (decimal lo) n) as [H2|H2];
      destruct (Z.ltb_spec (decimal hi) n) as [H3|H3];
      destruct (Z.leb_spec n (decimal hi)) as [H4|H4];
      try reflexivity; exfalso; lia. }
  rewrite Hd. reflexivity.
Qed.

Lemma get_strings_length_bounds_witness :
  let data :=
    List.filter
      (fun obj =>
         let n := Z.of_nat (Part000.length (Part000.properties obj)) in
         (decimal (Js.js "1") <=? n)%Z && (n <=? decimal (Js.js "10"))%Z)
      (JsMap.values sample_store_000) in
  exists filters,
    Part000.get_strings (B := AsciiHost) sample_store_000
      (length_bounds_000 (Js.js "1") (Js.js "10"))
    = Responded 200 (Part000.ListBody data (List.length data) filters).
Proof.
  refine (get_strings_length_bounds (B := AsciiHost) sample_store_000
            (Js.js "1") (Js.js "10") _ _ _ _ _ _).
  - discriminate.
  - repeat constructor.
  - vm_compute. discriminate.
  - discriminate.
  - repeat constructor.
  - vm_compute. discriminate.
Defined.

(** ** GET /strings with the palindrome parameter *)

(** X10. In the unnamed file GET /strings with a non-empty [is_palindrome]
    as the only parameter reads it without regard to case: when its
    lowercase form is true the answer lists exactly the palindromic records,
    when it is false exactly the others, and anything else is answered with
    400. *)
Theorem get_strings_is_palindrome_parameter `{B : Builtins}
    (stringStore : list (list N * Part000.StoredObj)) (p : list N) :
  p <> [] ->
  let flag obj := Part000.is_palindrome (Part000.properties obj) in
  let yes := List.filter flag (JsMap.values stringStore) in
  let no := List.filter (fun obj => negb (flag obj)) (JsMap.values stringStore) in
  (toLowerCase p = Js.js "true" ->
   exists f, Part000.get_strings stringStore (only_is_palindrome_000 p)
             = Responded 200 (Part000.ListBody yes (List.length yes) f))
  /\ (toLowerCase p = Js.js "false" ->
      exists f, Part000.get_strings stringStore (only_is_palindrome_000 p)
                = Responded 200 (Part000.ListBody no (List.length no) f))
  /\ (toLowerCase p <> Js.js "true" -> toLowerCase p <> Js.js "false" ->
      Part000.get_strings stringStore (only_is_palindrome_000 p)
      = Responded 400 (Part000.ErrorBody "is_palindrome must be true or false")).
Proof.
  intros Hne. cbn zeta.
  assert (Ht : Js.truthy p = true) by (destruct p; [congruence | reflexivity]).
  unfold Part000.get_strings, only_is_palindrome_000, Part000.make_filters,
    Part000.bad_bool, Part000.bad_int, Part000.bad_char, Part000.int_filter,
    array_includes, Js.str_eqb.
  cbn [Part000.q_is_palindrome Part000.q_min_length Part000.q_max_length
       Part000.q_word_count Part000.q_contains_character existsb].
  rewrite Ht. cbn [andb].
  split; [|split].
  - intros E. rewrite E.
    rewrite (bool_decide_eq_true_2 (Js.js "true" = Js.js "true")) by reflexivity.
    cbn [orb negb]. eexists.
    match goal with |- Responded _ (Part000.ListBody ?a _ _) = Responded _ (Part000.ListBody ?b _ _) =>
      assert (Hd : a = b) end.
    { apply (filter_ext_Forall (fun _ => True)); [apply Forall_forall; auto|].
      intros obj _. unfold Part000.matches. cbn.
      destruct (Part000.is_palindrome (Part000.properties obj)); reflexivity. }
    rewrite Hd. reflexivity.
  - intros E. rewrite E.
    rewrite (bool_decide_eq_false_2 (Js.js "false" = Js.js "true")) by discriminate.
    rewrite (bool_decide_eq_true_2 (Js.js "false" = Js.js "false")) by reflexivity.
    cbn [orb negb]. eexists.
    match goal with |- Responded _ (Part000.ListBody ?a _ _) = Responded _ (Part000.ListBody ?b _ _) =>
      assert (Hd : a = b) end.
    { apply (filter_ext_Forall (fun _ => True)); [apply Forall_forall; auto|].
      intros obj _. unfold Part000.matches. cbn.
      destruct (Part000.is_palindrome (Part000.properties obj)); reflexivity. }
    rewrite Hd. reflexivity.
  - intros E1 E2.
    rewrite (bool_decide_eq_false_2 _ E1), (bool_decide_eq_false_2 _ E2). reflexivity.
Qed.

Lemma get_strings_is_palindrome_parameter_witness :
  let flag obj := Part000.is_palindrome (Part000.properties obj) in
  let yes := List.filter flag (JsMap.values sample_store_000) in
  let no := List.filter (fun obj => negb (flag obj)) (JsMap.values sample_store_000) in
  (toLowerCase (Builtins := AsciiHost) (Js.js "FALSE") = Js.js "true" ->
   exists f, Part000.get_strings (B := AsciiHost) sample_store_000
               (only_is_palindrome_000 (Js.js "FALSE"))
             = Responded 200 (Part000.ListBody yes (List.length yes) f))
  /\ (toLowerCase (Builtins := AsciiHost) (Js.js "FALSE") = Js.js "false" ->
      exists f, Part000.get_strings (B := AsciiHost) sample_store_000
                  (only_is_palindrome_000 (Js.js "FALSE"))
                = Responded 200 (Part000.ListBody no (List.length no) f))
  /\ (toLowerCase (Builtins := AsciiHost) (Js.js "FALSE") <> Js.js "true" ->
      toLowerCase (Builtins := AsciiHost) (Js.js "FALSE") <> Js.js "false" ->
      Part000.get_strings (B := AsciiHost) sample_store_000
        (only_is_palindrome_000 (Js.js "FALSE"))
      = Responded 400 (Part000.ErrorBody "is_palindrome must be true or false")).
Proof.
  refine (get_strings_is_palindrome_parameter (B := AsciiHost) sample_store_000
            (Js.js "FALSE") _).
  discriminate.
Defined.

(** ** GET /strings with contains_character *)



(** X12. In the unnamed file, on a store that satisfies the invariant,
    GET /strings with a one-code-unit [contains_character] as the only
    parameter answers 200 with exactly the records whose [value] has that
    code unit as one of its code points. *)
Theorem get_strings_contains_character `{B : Builtins}
    (stringStore : list (list N * Part000.StoredObj)) (c : N) :
  store_ok_000 stringStore ->
  let data :=
    List.filter
      (fun obj => negb (Nat.eqb (occurrences [c] (Js.code_points (Part000.value obj))) 0))
      (JsMap.values stringStore) in
  exists f,
    Part000.get_strings stringStore (only_contains_000 [c])
    = Responded 200 (Part000.ListBody data (List.length data) f).
Proof.
  intros [_ Hrec]. cbn zeta.
  unfold Part000.get_strings, only_contains_000, Part000.make_filters,
    Part000.bad_bool, Part000.bad_int, Part000.bad_char, Part000.int_filter.
  cbn [Part000.q_is_palindrome Part000.q_min_length Part000.q_max_length
       Part000.q_word_count Part000.q_contains_character Js.truthy List.length
       Nat.eqb negb andb].
  eexists.
  match goal with |- Responded _ (Part000.ListBody ?a _ _) = Responded _ (Part000.ListBody ?b _ _) =>
    assert (Hd : a = b) end.
  { apply (filter_ext_Forall
             (fun obj => Part000.properties obj
                         = Part000.make_properties (Part000.value obj) (Part000.id obj))).
    - unfold JsMap.values. apply Forall_map.
      eapply Forall_impl; [exact Hrec|].
      intros [k obj] H. apply H.
    - intros obj Hobj. unfold Part000.matches.
      cbn [Part000.f_is_palindrome Part000.f_min_length Part000.f_max_length
           Part000.f_word_count Part000.f_contains_character Js.truthy andb].
      rewrite Hobj.
      destruct (frequency_map_counts_occurrences
                  (Part000.value obj) (Part000.id obj) [c]) as [[Hc Hn] _].
      cbn zeta in Hc, Hn. unfold falsy_count.
      destruct (Part000.character_frequency_map _ !! [c]) as [n|] eqn:E.
      + simpl in Hc. rewrite <- Hc. destruct (Nat.eqb n 0); reflexivity.
      + rewrite (proj1 Hn eq_refl). reflexivity. }
  rewrite Hd. reflexivity.
Qed.

Lemma get_strings_contains_character_witness :
  let data :=
    List.filter
      (fun obj => negb (Nat.eqb (occurrences [98%N] (Js.code_points (Part000.value obj))) 0))
      (JsMap.values sample_store_000) in
  exists f,
    Part000.get_strings (B := AsciiHost) sample_store_000 (only_contains_000 [98%N])
    = Responded 200 (Part000.ListBody data (List.length data) f).
Proof.
  refine (get_strings_contains_character (B := AsciiHost) sample_store_000 98%N _).
  exact (post_strings_keeps_store_ok_000 (B := AsciiHost) (Js.js "t") []
           (Some (JString (Js.js "ab"))) (proj1 (store_ok_empty (B := AsciiHost)))).
Defined.

(** ** GET /strings/ of src/index.js: the palindrome flag of the answer *)

(** X13. In src/index.js every record of a 200 answer of GET /strings/ has
    the same palindrome flag, the one of the filters; when the request has
    no [is_palidrome] parameter that flag is false, so no palindromic record
    is listed whatever the other parameters are. [count] is the number of
    records listed. *)
Theorem index_listing_has_one_flag `{B : Builtins}
    (stringStore : list (list N * IndexJs.StoredObj)) (q : IndexJs.Query)
    (data : list IndexJs.StoredObj) (count : nat) (f : IndexJs.Filters) :
  IndexJs.get_strings stringStore q = Responded 200 (IndexJs.ListBody data count f) ->
  Forall (fun obj => IndexJs.is_palidrome (IndexJs.properties obj)
                     = IndexJs.f_is_palidrome f) data
  /\ count = List.length data
  /\ (IndexJs.q_is_palidrome q = None -> IndexJs.f_is_palidrome f = false).
Proof.
  unfold IndexJs.get_strings.
  destruct (IndexJs.bad_bool _); [discriminate|].
  destruct (IndexJs.bad_int (IndexJs.q_min_length q)); [discriminate|].
  destruct (IndexJs.bad_int (IndexJs.q_max_length q)); [discriminate|].
  destruct (IndexJs.bad_int (IndexJs.q_word_count q)); [discriminate|].
  destruct (IndexJs.bad_char _); [discriminate|].
  intros [= <- <- <-]. split; [|split].
  - apply List.Forall_forall. intros obj Hin. apply filter_In in Hin as [_ Hm].
    unfold IndexJs.matches in Hm.
    destruct (Bool.eqb (IndexJs.f_is_palidrome (IndexJs.make_filters q))
                (IndexJs.is_palidrome (IndexJs.properties obj))) eqn:E;
      [|discriminate].
    apply eqb_prop in E. congruence.
  - reflexivity.
  - intros Hq. unfold IndexJs.make_filters. cbn [IndexJs.f_is_palidrome].
    rewrite Hq. reflexivity.
Qed.

Lemma index_listing_has_one_flag_witness :
  Forall (fun obj => IndexJs.is_palidrome (IndexJs.properties obj)
                     = IndexJs.f_is_palidrome (IndexJs.make_filters (B := AsciiHost)
                                                 no_parameters_index))
         (List.filter (IndexJs.matches (IndexJs.make_filters (B := AsciiHost)
                                          no_parameters_index))
                      (JsMap.values sample_store_index))
  /\ List.length (List.filter (IndexJs.matches (IndexJs.make_filters (B := AsciiHost)
                                                  no_parameters_index))
                    (JsMap.values sample_store_index))
     = List.length (List.filter (IndexJs.matches (IndexJs.make_filters (B := AsciiHost)
                                                    no_parameters_index))
                      (JsMap.values sample_store_index))
  /\ (IndexJs.q_is_palidrome no_parameters_index = None ->
      IndexJs.f_is_palidrome (IndexJs.make_filters (B := AsciiHost) no_parameters_index)
      = false).
Proof.
  exact (index_listing_has_one_flag (B := AsciiHost) sample_store_index
           no_parameters_index _ _ _ eq_refl).
Defined.

(** ** Numeric parameters followed by text *)

Lemma digit_value_non_digit (u : N) :
  Js.is_digit u = false -> Js.digit_value 10 u = None.
Proof.
  intros H. unfold Js.digit_value. rewrite H.
  destruct ((0x61 <=? u)%N && (u <=? 0x7A)%N) eqn:E1.
  - apply andb_true_iff in E1 as [H1 H2]. apply N.leb_le in H1, H2.
    destruct (Z.ltb_spec (Z.of_N u - 0x61 + 10) 10); [lia | reflexivity].
  - destruct ((0x41 <=? u)%N && (u <=? 0x5A)%N) eqn:E2; [|reflexivity].
    apply andb_true_iff in E2 as [H1 H2]. apply N.leb_le in H1, H2.
    destruct (Z.ltb_spec (Z.of_N u - 0x41 + 10) 10); [lia | reflexivity].
Qed.

Lemma digits_go_stops (ds : list N) (u : N) (t : list N) (acc : Z) (seen : bool) :
  Forall (fun u => Js.is_digit u = true) ds -> ds <> [] \/ seen = true ->
  Js.is_digit u = false ->
  Js.digits_go 10 acc seen (ds ++ u :: t)
  = Some (fold_left (fun acc d => (acc * 10 + (Z.of_N d - 48))%Z) ds acc).
Proof.
  intros Hds. revert acc seen.
  induction Hds as [|d ds Hd _ IH]; intros acc seen Hne Hu; simpl.
  - rewrite (digit_value_non_digit u Hu).
    destruct Hne as [Hne | ->]; [congruence | reflexivity].
  - rewrite (digit_value_decimal d Hd). apply IH; [right; reflexivity | exact Hu].
Qed.

(** [parseInt] reads the leading digits and ignores what follows them. *)
Lemma parseInt_leading_digits (ds : list N) (u : N) (t : list N) :
  ds <> [] -> Forall (fun u => Js.is_digit u = true) ds ->
  Js.is_digit u = false -> u <> 0x78%N -> u <> 0x58%N ->
  Js.parseInt (ds ++ u :: t) = Js.to_double (decimal ds).
Proof.
  intros Hne Hds Hu Hx HX. unfold Js.parseInt.
  destruct ds as [|d ds]; [congruence|].
  pose proof (Forall_inv Hds) as Hd. pose proof (Forall_inv_tail Hds) as Htl.
  assert (Hr : (48 <= d <= 57)%N).
  { unfold Js.is_digit in Hd. apply andb_true_iff in Hd as [H1 H2].
    apply N.leb_le in H1, H2. lia. }
  cbn [app Js.trim_start]. rewrite (digit_not_whitespace d Hd).
  destruct (N.eqb_spec d 0x2D) as [E|_]; [lia|].
  destruct (N.eqb_spec d 0x2B) as [E|_]; [lia|].
  assert (Hradix :
    match d :: ds ++ u :: t with
    | z :: x :: t' =>
        if (z =? 0x30)%N && ((x =? 0x78)%N || (x =? 0x58)%N)
        then (16%Z, t') else (10%Z, d :: ds ++ u :: t)
    | _ => (10%Z, d :: ds ++ u :: t)
    end = (10%Z, d :: ds ++ u :: t)).
  { destruct ds as [|x ds'].
    - simpl. destruct (N.eqb_spec u 0x78) as [E|_]; [congruence|].
      destruct (N.eqb_spec u 0x58) as [E|_]; [congruence|].
      rewrite andb_false_r. reflexivity.
    - simpl. pose proof (Forall_inv Htl) as Hx'. unfold Js.is_digit in Hx'.
      apply andb_true_iff in Hx' as [H1 H2]. apply N.leb_le in H1, H2.
      destruct (N.eqb_spec x 0x78) as [E|_]; [lia|].
      destruct (N.eqb_spec x 0x58) as [E|_]; [lia|].
      rewrite andb_false_r. reflexivity. }
  rewrite Hradix.
  change (d :: ds ++ u :: t) with ((d :: ds) ++ u :: t).
  rewrite (digits_go_stops (d :: ds) u t 0 false Hds) by (try left; congruence).
  reflexivity.
Qed.

(** X14. In both files the validation of [min_length] accepts a decimal
    number followed by other text and the filter uses the number alone:
    the answer of GET /strings to such a parameter is the answer to the
    number without the text, whatever the store and the other parameters. *)
Theorem get_strings_ignores_text_after_number `{B : Builtins}
    (store000 : list (list N * Part000.StoredObj))
    (storeIndex : list (list N * IndexJs.StoredObj))
    (q : Part000.Query) (q' : IndexJs.Query) (ds : list N) (u : N) (t : list N) :
  ds <> [] -> Forall (fun u => Js.is_digit u = true) ds ->
  Js.is_digit u = false -> u <> 0x78%N -> u <> 0x58%N ->
  Part000.get_strings store000 (with_min_length_000 q (ds ++ u :: t))
  = Part000.get_strings store000 (with_min_length_000 q ds)
  /\ IndexJs.get_strings storeIndex (with_min_length_index q' (ds ++ u :: t))
     = IndexJs.get_strings storeIndex (with_min_length_index q' ds).
Proof.
  intros Hne Hds Hu Hx HX.
  pose proof (parseInt_leading_digits ds u t Hne Hds Hu Hx HX) as Hp.
  rewrite <- (parseInt_digits ds Hne Hds) in Hp.
  assert (T1 : Js.truthy (ds ++ u :: t) = true) by (destruct ds; reflexivity).
  assert (T2 : Js.truthy ds = true) by (destruct ds; [congruence | reflexivity]).
  split.
  - unfold Part000.get_strings, Part000.make_filters, with_min_length_000,
      Part000.bad_int, Part000.int_filter.
    cbn [Part000.q_is_palindrome Part000.q_min_length Part000.q_max_length
         Part000.q_word_count Part000.q_contains_character].
    rewrite T1, T2, Hp. reflexivity.
  - unfold IndexJs.get_strings, IndexJs.make_filters, with_min_length_index,
      IndexJs.bad_int, IndexJs.int_filter.
    cbn [IndexJs.q_is_palidrome IndexJs.q_min_length IndexJs.q_max_length
         IndexJs.q_word_count IndexJs.q_contains_character].
    rewrite T1, T2, Hp. reflexivity.
Qed.

Lemma get_strings_ignores_text_after_number_witness :
  Part000.get_strings (B := AsciiHost) sample_store_000
    (with_min_length_000 no_parameters_000 (Js.js "2px"))
  = Part000.get_strings (B := AsciiHost) sample_store_000
      (with_min_length_000 no_parameters_000 (Js.js "2"))
  /\ IndexJs.get_strings (B := AsciiHost) sample_store_index
       (with_min_length_index no_parameters_index (Js.js "2px"))
     = IndexJs.get_strings (B := AsciiHost) sample_store_index
         (with_min_length_index no_parameters_index (Js.js "2")).
Proof.
  refine (get_strings_ignores_text_after_number (B := AsciiHost)
            sample_store_000 sample_store_index no_parameters_000 no_parameters_index
            (Js.js "2") 112%N (Js.js "x") _ _ eq_refl _ _).
  - discriminate.
  - repeat constructor.
  - discriminate.
  - discriminate.
Defined.

(** ** The palindrome flag on ASCII strings *)

Lemma lower_unit_idempotent (u : N) : lower_unit (lower_unit u) = lower_unit u.
Proof.
  unfold lower_unit.
  destruct ((0x41 <=? u)%N && (u <=? 0x5A)%N) eqn:E; [|rewrite E; reflexivity].
  apply andb_true_iff in E as [H1 H2]. apply N.leb_le in H1, H2.
  destruct (N.leb_spec (u + 0x20) 0x5A); [lia|]. rewrite andb_false_r. reflexivity.
Qed.

Lemma lower_unit_ascii (u : N) : (u < 128)%N -> (lower_unit u < 128)%N.
Proof.
  unfold lower_unit. intros H.
  destruct ((0x41 <=? u)%N && (u <=? 0x5A)%N) eqn:E; [|exact H].
  apply andb_true_iff in E as [H1 H2]. apply N.leb_le in H1, H2. lia.
Qed.

(** X15. In both files, for a string of ASCII code units, the palindrome
    flag is the same for the string, for its reverse and for its lowercase
    form. *)
Theorem palindrome_flag_ascii_invariance `{B : Builtins} (str : list N) :
  lowers_ascii B ->
  Forall (fun u => (u < 128)%N) str ->
  (Part000.isPalindrome (rev str) = Part000.isPalindrome str
   /\ Part000.isPalindrome (map lower_unit str) = Part000.isPalindrome str)
  /\ (IndexJs.isPalidrome (rev str) = IndexJs.isPalidrome str
      /\ IndexJs.isPalidrome (map lower_unit str) = IndexJs.isPalidrome str).
Proof.
  intros HB Hs.
  assert (Hrev : Forall (fun u => (u < 128)%N) (rev str)) by (apply Forall_rev; exact Hs).
  assert (Hlow : Forall (fun u => (u < 128)%N) (map lower_unit str)).
  { apply Forall_map. eapply Forall_impl; [exact Hs|]. intros u. apply lower_unit_ascii. }
  assert (Hll : map lower_unit (map lower_unit str) = map lower_unit str).
  { rewrite map_map. apply map_ext. apply lower_unit_idempotent. }
  unfold Part000.isPalindrome, IndexJs.isPalidrome.
  rewrite !join_rev_split_units.
  rewrite (HB str Hs), (HB (rev str) Hrev), (HB _ Hlow), Hll, map_rev, rev_involutive.
  unfold Js.str_eqb.
  assert (Hsym : bool_decide (rev (map lower_unit str) = map lower_unit str)
                 = bool_decide (map lower_unit str = rev (map lower_unit str))).
  { apply bool_decide_ext. split; intros E; symmetry; exact E. }
  rewrite Hsym. repeat split; reflexivity.
Qed.

Lemma palindrome_flag_ascii_invariance_witness :
  (Part000.isPalindrome (B := AsciiHost) (rev (Js.js "Racecar"))
   = Part000.isPalindrome (B := AsciiHost) (Js.js "Racecar")
   /\ Part000.isPalindrome (B := AsciiHost) (map lower_unit (Js.js "Racecar"))
      = Part000.isPalindrome (B := AsciiHost) (Js.js "Racecar"))
  /\ (IndexJs.isPalidrome (B := AsciiHost) (rev (Js.js "Racecar"))
      = IndexJs.isPalidrome (B := AsciiHost) (Js.js "Racecar")
      /\ IndexJs.isPalidrome (B := AsciiHost) (map lower_unit (Js.js "Racecar"))
         = IndexJs.isPalidrome (B := AsciiHost) (Js.js "Racecar")).
Proof.
  refine (palindrome_flag_ascii_invariance (B := AsciiHost) (Js.js "Racecar")
            AsciiHost_lowers_ascii _).
  repeat constructor.
Defined.

(** ** When the translator gives up *)

Lemma str_match_none_iff (r : Js.regex) (s : list N) :
  Js.str_match r s = None <-> forall i rest, ~ Js.denote r (drop i s) rest.
Proof.
  induction s as [|u t IH].
  - simpl. destruct (Js.run r []) as [|[caps rest] tl] eqn:E.
    + split; [|reflexivity]. intros _ i rest H. rewrite drop_nil in H.
      exact (run_nil_of_no_match_conv r [] rest H E).
    + split; [discriminate|]. intros H. exfalso.
      apply (H 0 rest). simpl. apply (run_sound r [] caps). rewrite E. left. reflexivity.
  - cbn [Js.str_match]. destruct (Js.run r (u :: t)) as [|[caps rest] tl] eqn:E.
    + rewrite IH. split.
      * intros H [|i] rest Hd.
        -- simpl in Hd. exact (run_nil_of_no_match_conv r _ rest Hd E).
        -- simpl in Hd. exact (H i rest Hd).
      * intros H i rest Hd. exact (H (S i) rest Hd).
    + split; [discriminate|]. intros H. exfalso.
      apply (H 0 rest). simpl. apply (run_sound r _ caps). rewrite E. left. reflexivity.
Qed.

Lemma b2n_zero (b : bool) : b2n b = 0 <-> b = false.
Proof. destruct b; simpl; split; congruence. Qed.

Lemma is_Some_decide_false {A} (o : option A) :
  bool_decide (is_Some o) = false <-> o = None.
Proof.
  destruct o.
  - rewrite bool_decide_eq_true_2 by eauto. split; discriminate.
  - rewrite bool_decide_eq_false_2; [tauto|]. intros [x Hx]. discriminate.
Qed.

(** X16. In the unnamed file [parseNaturalLanguage] returns [null] exactly
    when the lowercase query contains none of the words palindrome,
    palindromic and single word, and neither of the two patterns matches at
    any position of it. *)
Theorem parseNaturalLanguage_null_iff `{B : Builtins} (query : list N) :
  Part000.parseNaturalLanguage query = None
  <-> (Js.includes (toLowerCase query) (Js.js "palindrome") = false
       /\ Js.includes (toLowerCase query) (Js.js "palindromic") = false
       /\ Js.includes (toLowerCase query) (Js.js "single word") = false
       /\ (forall i rest, ~ Js.denote lengthRe (drop i (toLowerCase query)) rest)
       /\ (forall i rest, ~ Js.denote containsRe (drop i (toLowerCase query)) rest)).
Proof.
  unfold Part000.parseNaturalLanguage.
  rewrite <- !str_match_none_iff.
  set (lq := toLowerCase query).
  destruct (Nat.eqb_spec
              (b2n (Js.includes lq (Js.js "palindrome") || Js.includes lq (Js.js "palindromic"))
               + b2n (Js.includes lq (Js.js "single word"))
               + b2n (bool_decide (is_Some (Js.str_match lengthRe lq)))
               + b2n (bool_decide (is_Some (Js.str_match containsRe lq)))) 0) as [E|E].
  - split; [intros _|reflexivity].
    assert (E1 : b2n (Js.includes lq (Js.js "palindrome")
                      || Js.includes lq (Js.js "palindromic")) = 0) by lia.
    assert (E2 : b2n (Js.includes lq (Js.js "single word")) = 0) by lia.
    assert (E3 : b2n (bool_decide (is_Some (Js.str_match lengthRe lq))) = 0) by lia.
    assert (E4 : b2n (bool_decide (is_Some (Js.str_match containsRe lq))) = 0) by lia.
    apply b2n_zero in E1, E2, E3, E4. apply orb_false_iff in E1 as [E1 E1'].
    apply is_Some_decide_false in E3, E4. repeat split; assumption.
  - split; [discriminate|]. intros (H1 & H2 & H3 & H4 & H5). exfalso. apply E.
    rewrite H1, H2, H3, H4, H5. reflexivity.
Qed.

(** ** What the translator can return *)

Lemma in_run_seq (r1 r2 : Js.regex) (s : list N) caps rest :
  In (caps, rest) (Js.run (Js.Seq r1 r2) s) ->
  exists c1 mid c2, In (c1, mid) (Js.run r1 s) /\ In (c2, rest) (Js.run r2 mid)
                    /\ caps = c1 ++ c2.
Proof.
  simpl. rewrite in_flat_map. intros ([c1 mid] & Hin1 & Hin2).
  rewrite in_map_iff in Hin2. destruct Hin2 as ([c2 r'] & [= <- <-] & Hin2).
  eauto 7.
Qed.

Lemma in_run_lit (l s : list N) caps rest :
  In (caps, rest) (Js.run (Js.Lit l) s) -> caps = [] /\ s = l ++ rest.
Proof.
  simpl. destruct (Js.starts_with l s) eqn:E; [|intros []].
  apply starts_with_spec in E as [x ->].
  intros [[= <- <-] | []]. rewrite drop_app_length. split; reflexivity.
Qed.

Lemma in_run_opt (r : Js.regex) (s : list N) caps rest :
  In (caps, rest) (Js.run (Js.Opt r) s) ->
  In (caps, rest) (Js.run r s) \/ (caps = replicate (Js.groups r) None /\ rest = s).
Proof.
  cbn [Js.run]. rewrite in_app_iff. intros [H | [[= <- <-] | []]]; [left; exact H|].
  right. split; reflexivity.
Qed.

Lemma in_run_group (r : Js.regex) (s : list N) caps rest :
  In (caps, rest) (Js.run (Js.Group r) s) ->
  exists c, In (c, rest) (Js.run r s) /\ caps = Some (Js.consumed s rest) :: c.
Proof.
  cbn [Js.run]. rewrite in_map_iff. intros ([c r'] & [= <- <-] & Hin). eauto.
Qed.

Lemma in_run_plus (p : N -> bool) (s : list N) caps rest :
  In (caps, rest) (Js.run (Js.Plus p) s) ->
  caps = [] /\ exists ds, ds <> [] /\ Forall (fun u => p u = true) ds /\ s = ds ++ rest.
Proof.
  cbn [Js.run]. rewrite in_map_iff. intros (r' & [= <- <-] & Hin).
  split; [reflexivity|]. exact (run_plus_sound p s r' Hin).
Qed.

Lemma in_run_class (p : N -> bool) (s : list N) caps rest :
  In (caps, rest) (Js.run (Js.Class p) s) ->
  caps = [] /\ exists u, p u = true /\ s = u :: rest.
Proof.
  cbn [Js.run]. destruct s as [|u t]; [intros []|].
  destruct (p u) eqn:Hu; [|intros []].
  intros [[= <- <-] | []]. eauto.
Qed.

Lemma lengthRe_captures (s : list N) caps rest :
  In (caps, rest) (Js.run lengthRe s) ->
  exists c1 ds, caps = [c1; Some ds] /\ ds <> []
                /\ Forall (fun u => Js.is_digit u = true) ds.
Proof.
  unfold lengthRe. intros H.
  apply in_run_seq in H as (c1 & m1 & c1' & H1 & H & ->).
  apply in_run_lit in H1 as [-> _].
  apply in_run_seq in H as (c2 & m2 & c2' & H2 & H & ->).
  apply in_run_seq in H as (c3 & m3 & c3' & H3 & H & ->).
  apply in_run_lit in H3 as [-> _].
  apply in_run_seq in H as (c4 & m4 & c4' & H4 & H & ->).
  apply in_run_seq in H as (c5 & m5 & c5' & H5 & H6 & ->).
  apply in_run_lit in H5 as [-> _].
  apply in_run_opt in H6 as [H6 | [-> _]]; [apply in_run_lit in H6 as [-> _]|].
  - apply in_run_group in H4 as (c & H4 & ->).
    apply in_run_plus in H4 as [-> (ds & Hne & Hds & ->)].
    rewrite consumed_app.
    apply in_run_opt in H2 as [H2 | [-> _]].
    + apply in_run_group in H2 as (c & H2 & ->).
      apply in_run_lit in H2 as [-> _]. eexists _, ds. repeat split; assumption.
    + eexists _, ds. repeat split; assumption.
  - apply in_run_group in H4 as (c & H4 & ->).
    apply in_run_plus in H4 as [-> (ds & Hne & Hds & ->)].
    rewrite consumed_app.
    apply in_run_opt in H2 as [H2 | [-> _]].
    + apply in_run_group in H2 as (c & H2 & ->).
      apply in_run_lit in H2 as [-> _]. eexists _, ds. repeat split; assumption.
    + eexists _, ds. repeat split; assumption.
Qed.

Lemma containsRe_captures (s : list N) caps rest :
  In (caps, rest) (Js.run containsRe s) ->
  exists c, caps = [Some [c]] /\ Js.is_word c = true.
Proof.
  unfold containsRe. intros H.
  apply in_run_seq in H as (c1 & m1 & c1' & H1 & H & ->).
  apply in_run_lit in H1 as [-> _].
  apply in_run_seq in H as (c2 & m2 & c2' & H2 & H & ->).
  apply in_run_seq in H as (c3 & m3 & c3' & H3 & H4 & ->).
  apply in_run_lit in H3 as [-> _].
  apply in_run_group in H4 as (c & H4 & ->).
  apply in_run_class in H4 as [-> (u & Hu & ->)].
  change (Js.consumed (u :: rest) rest) with (Js.consumed ([u] ++ rest) rest).
  rewrite consumed_app.
  apply in_run_opt in H2 as [H2 | [-> _]]; [apply in_run_lit in H2 as [-> _]|];
    exists u; split; try reflexivity; exact Hu.
Qed.

Lemma str_match_In (r : Js.regex) (s : list N) m :
  Js.str_match r s = Some m ->
  exists t caps rest, m = Some (Js.consumed t rest) :: caps /\ In (caps, rest) (Js.run r t).
Proof.
  induction s as [|u t IH]; simpl.
  - destruct (Js.run r []) as [|[caps rest] tl] eqn:E; [discriminate|].
    intros [= <-]. exists [], caps, rest. split; [reflexivity|]. rewrite E. left. reflexivity.
  - destruct (Js.run r (u :: t)) as [|[caps rest] tl] eqn:E; [exact IH|].
    intros [= <-]. exists (u :: t), caps, rest. split; [reflexivity|].
    rewrite E. left. reflexivity.
Qed.

Lemma round53_pos (z : Z) : (1 <= z)%Z -> (1 <= Js.round53 z)%Z.
Proof.
  intros Hz. unfold Js.round53.
  destruct (Z.leb_spec (Z.log2 z + 1) 53) as [_|Hk]; [exact Hz|].
  set (sh := (Z.log2 z + 1 - 53)%Z).
  assert (Hsh : (1 <= sh)%Z) by (unfold sh; lia).
  assert (Hq : (1 <= Z.shiftr z sh)%Z).
  { rewrite Z.shiftr_div_pow2 by lia.
    pose proof (Z.log2_spec z ltac:(lia)) as [Hlo _].
    assert (2 ^ sh <= 2 ^ Z.log2 z)%Z by (apply Z.pow_le_mono_r; unfold sh; lia).
    assert (0 < 2 ^ sh)%Z by (apply Z.pow_pos_nonneg; lia).
    apply Z.div_le_lower_bound; lia. }
  assert (Hp : (0 < 2 ^ sh)%Z) by (apply Z.pow_pos_nonneg; lia).
  destruct ((Z.shiftl 1 (sh - 1) <? Z.land z (Z.ones sh))%Z
            || (Z.land z (Z.ones sh) =? Z.shiftl 1 (sh - 1))%Z && Z.odd (Z.shiftr z sh));
    rewrite Z.shiftl_mul_pow2 by lia; nia.
Qed.

Lemma to_double_pos (z : Z) :
  (1 <= z)%Z -> Js.to_double z = Js.Inf false \/ exists m, Js.to_double z = Js.Num m /\ (1 <= m)%Z.
Proof.
  intros Hz. unfold Js.to_double. rewrite Z.abs_eq by lia.
  pose proof (round53_pos z Hz) as Hm.
  destruct (Z.leb_spec (2 ^ 1024) (Js.round53 z)).
  - left. destruct (Z.ltb_spec z 0); [lia | reflexivity].
  - right. eexists. split; [reflexivity|]. rewrite Z.sgn_pos by lia. lia.
Qed.

Lemma to_double_nonneg (z : Z) :
  (0 <= z)%Z -> Js.to_double z = Js.Inf false \/ exists m, Js.to_double z = Js.Num m /\ (0 <= m)%Z.
Proof.
  intros Hz. destruct (Z.eq_dec z 0%Z) as [->|Hne].
  - right. exists 0%Z. split; [reflexivity | lia].
  - destruct (to_double_pos z ltac:(lia)) as [H | (m & H & Hm)]; [left; exact H|].
    right. exists m. split; [exact H | lia].
Qed.

(** X17. In the unnamed file a FilterSet returned by [parseNaturalLanguage]
    always has at least one predicate; it never has [max_length]; its
    palindrome flag, if present, is true; its [word_count], if present, is
    1; its [min_length], if present, is a number at least 1 or +Infinity,
    never NaN; and its [contains_character], if present, is one word
    character. *)
Theorem parseNaturalLanguage_result_shape `{B : Builtins}
    (query : list N) (f : Part000.Filters) :
  Part000.parseNaturalLanguage query = Some f ->
  f <> no_filters
  /\ Part000.f_max_length f = None
  /\ (Part000.f_is_palindrome f = None \/ Part000.f_is_palindrome f = Some true)
  /\ (Part000.f_word_count f = None \/ Part000.f_word_count f = Some (Js.Num 1))
  /\ (forall n, Part000.f_min_length f = Some n ->
                n = Js.Inf false \/ exists z, n = Js.Num z /\ (1 <= z)%Z)
  /\ (forall c, Part000.f_contains_character f = Some c ->
                exists u, c = [u] /\ Js.is_word u = true).
Proof.
  unfold Part000.parseNaturalLanguage. set (lq := toLowerCase query).
  set (pal := Js.includes lq (Js.js "palindrome") || Js.includes lq (Js.js "palindromic")).
  set (single := Js.includes lq (Js.js "single word")).
  assert (HL : forall m, Js.str_match lengthRe lq = Some m ->
                 exists ds, Js.capture m 2 = Some ds /\ ds <> []
                            /\ Forall (fun u => Js.is_digit u = true) ds).
  { intros m Hm. apply str_match_In in Hm as (t & caps & rest & -> & Hin).
    apply lengthRe_captures in Hin as (c1 & ds & -> & Hne & Hds).
    exists ds. repeat split; assumption. }
  assert (HC : forall m, Js.str_match containsRe lq = Some m ->
                 exists u, Js.capture m 1 = Some [u] /\ Js.is_word u = true).
  { intros m Hm. apply str_match_In in Hm as (t & caps & rest & -> & Hin).
    apply containsRe_captures in Hin as (c & -> & Hc).
    exists c. split; [reflexivity | exact Hc]. }
  destruct (Nat.eqb_spec
              (b2n pal + b2n single
               + b2n (bool_decide (is_Some (Js.str_match lengthRe lq)))
               + b2n (bool_decide (is_Some (Js.str_match containsRe lq)))) 0) as [E|E];
    [discriminate|].
  intros [= <-].
  cbn [Part000.f_max_length Part000.f_is_palindrome Part000.f_word_count
       Part000.f_min_length Part000.f_contains_character].
  split; [|split; [reflexivity|split; [|split; [|split]]]].
  - intros Hf. apply E.
    apply (f_equal Part000.f_is_palindrome) in Hf as H1.
    apply (f_equal Part000.f_word_count) in Hf as H2.
    apply (f_equal Part000.f_min_length) in Hf as H3.
    apply (f_equal Part000.f_contains_character) in Hf as H4.
    cbn in H1, H2, H3, H4.
    destruct pal; [discriminate|]. destruct single; [discriminate|].
    destruct (Js.str_match lengthRe lq) as [m|]; [discriminate|].
    destruct (Js.str_match containsRe lq) as [m|] eqn:Em.
    + destruct (HC m eq_refl) as (u & Hu & _). congruence.
    + rewrite !bool_decide_eq_false_2 by (intros [x Hx]; discriminate). reflexivity.
  - destruct pal; [right | left]; reflexivity.
  - destruct single; [right | left]; reflexivity.
  - intros n. destruct (Js.str_match lengthRe lq) as [m|]; [|discriminate].
    destruct (HL m eq_refl) as (ds & Hcap & Hne & Hds). rewrite Hcap.
    intros [= <-]. simpl parseInt_capture. rewrite (parseInt_digits ds Hne Hds).
    destruct (to_double_nonneg (decimal ds) (decimal_nonneg ds Hds)) as [-> | (m0 & -> & Hm0)].
    + left. reflexivity.
    + simpl. destruct (to_double_pos (m0 + 1) ltac:(lia)) as [-> | (m1 & -> & Hm1)];
        [left; reflexivity | right; eauto].
  - intros c. destruct (Js.str_match containsRe lq) as [m|]; [|discriminate].
    destruct (HC m eq_refl) as (u & Hcap & Hu). rewrite Hcap.
    intros [= <-]. eauto.
Qed.

Lemma parseNaturalLanguage_result_shape_witness :
  let f := {| Part000.f_is_palindrome := Some true;
              Part000.f_min_length := Some (Js.Num 11);
              Part000.f_max_length := None;
              Part000.f_word_count := None;
              Part000.f_contains_character := None |} in
  f <> no_filters
  /\ Part000.f_max_length f = None
  /\ (Part000.f_is_palindrome f = None \/ Part000.f_is_palindrome f = Some true)
  /\ (Part000.f_word_count f = None \/ Part000.f_word_count f = Some (Js.Num 1))
  /\ (forall n, Part000.f_min_length f = Some n ->
                n = Js.Inf false \/ exists z, n = Js.Num z /\ (1 <= z)%Z)
  /\ (forall c, Part000.f_contains_character f = Some c ->
                exists u, c = [u] /\ Js.is_word u = true).
Proof.
  refine (parseNaturalLanguage_result_shape (B := AsciiHost)
            (Js.js "palindromic strings longer than 10 characters") _ _).
  vm_compute. reflexivity.
Defined.

(** ** Blank path values *)

(** X19. In both files GET /strings/:value and DELETE /strings/:value
    answer 400 exactly when the path value is empty or consists of
    whitespace only. *)
Theorem path_handlers_blank_iff `{B : Builtins} (value : list N)
    (store000 : list (list N * Part000.StoredObj))
    (storeIndex : list (list N * IndexJs.StoredObj)) :
  let blank := Forall (fun u => Js.is_whitespace u = true) value in
  (status_of (Part000.get_string store000 value) = 400 <-> blank)
  /\ (status_of (fst (Part000.delete_string store000 value)) = 400 <-> blank)
  /\ (status_of (IndexJs.get_string storeIndex value) = 400 <-> blank)
  /\ (status_of (fst (IndexJs.delete_string storeIndex value)) = 400 <-> blank).
Proof.
  cbn zeta. rewrite <- trim_nil_iff.
  unfold Part000.get_string, Part000.delete_string,
    IndexJs.get_string, IndexJs.delete_string.
  destruct value as [|u t]; [repeat split; reflexivity|].
  cbn [Js.truthy negb].
  destruct (Js.trim (u :: t)) as [|a r] eqn:E; cbn [Js.truthy negb].
  - repeat split; reflexivity.
  - destruct (JsMap.get _ store000), (JsMap.has _ store000), (JsMap.has _ storeIndex);
      cbn [negb fst status_of]; repeat split; intros H; try discriminate; lia.
Qed.

(** ** Requests that src/index.js answers without throwing *)

Lemma literal_piece_is_param (a b : list N) (path : list (list N)) ps :
  b <> [] ->
  match_path [Literal a; Literal b] path = Some ps ->
  match_path [Literal a; Param] path <> None.
Proof.
  intros Hb. destruct path as [|p1 [|p2 [|p3 rest]]]; simpl; try discriminate.
  - destruct (Js.str_eqb _ _); discriminate.
  - destruct (Js.str_eqb (map lower_unit p1) (map lower_unit a)); [|discriminate].
    destruct (Js.str_eqb (map lower_unit p2) (map lower_unit b)) eqn:E; [|discriminate].
    intros _. destruct p2 as [|u t]; [|discriminate].
    exfalso. apply bool_decide_eq_true_1 in E. destruct b; [congruence | discriminate].
  - destruct (Js.str_eqb (map lower_unit p1) (map lower_unit a)); [|discriminate].
    destruct (Js.str_eqb (map lower_unit p2) (map lower_unit b)); discriminate.
Qed.

(** X20. In src/index.js no GET and no DELETE request (any path, query
    parameters absent or single strings) makes the server throw, although
    the natural-language handler throws whenever it is called with a
    non-empty query ([index_nl_handler_throws_when_called]): every path
    that matches its route matches the route /strings/:value first. *)
Theorem index_get_and_delete_never_throw `{B : Builtins}
    (now : list N) (stringStore : list (list N * IndexJs.StoredObj))
    (path : list (list N)) (query : list N -> option (list N))
    (body : option json) (e : JsError) (st : list (list N * IndexJs.StoredObj)) :
  IndexJs.server now stringStore
    {| req_method := GET; req_path := path; req_query := query;
       req_body_value := body |} <> Some (Threw e, st)
  /\ IndexJs.server now stringStore
       {| req_method := DELETE; req_path := path; req_query := query;
          req_body_value := body |} <> Some (Threw e, st).
Proof.
  unfold IndexJs.server, IndexJs.routes.
  cbn [dispatch method_matches route_method route_path route_handler
       req_method req_path req_query].
  split.
  - destruct (match_path [Literal (Js.js "strings"); Param] path) as [ps|] eqn:E1.
    + unfold IndexJs.get_string.
      destruct (negb _); [discriminate|]. destruct (negb _); discriminate.
    + destruct (match_path [Literal (Js.js "strings")] path) as [ps|] eqn:E2.
      * unfold IndexJs.get_strings.
        destruct (IndexJs.bad_bool _); [discriminate|].
        destruct (IndexJs.bad_int _); [discriminate|].
        destruct (IndexJs.bad_int _); [discriminate|].
        destruct (IndexJs.bad_int _); [discriminate|].
        destruct (IndexJs.bad_char _); discriminate.
      * destruct (match_path [Literal (Js.js "strings");
                              Literal (Js.js "filter-by-natural-language")] path)
          as [ps|] eqn:E3; [|discriminate].
        exfalso. apply (literal_piece_is_param _ _ path ps) in E3; [|discriminate].
        exact (E3 E1).
  - destruct (match_path [Literal (Js.js "strings"); Param] path) as [ps|] eqn:E1;
      [|discriminate].
    unfold IndexJs.delete_string.
    destruct (negb _); [discriminate|]. destruct (negb _); [discriminate|].
    destruct (negb _); discriminate.
Qed.
